(** * gdutils.extract : a shallow embedding of [ExtractTable]

    The development follows [src/gdutils/extract.py].  The class keeps eight
    private attributes and exposes four validating setters, [extract],
    [extract_to_file], [list_columns] and [list_values].  Data frames, the
    file system and the WKT parser are collaborators of the class: frames
    are modelled as finite tables of cells, the file system as an explicit
    state, and the WKT parser as a section variable. *)

From Stdlib Require Import String Ascii List Bool ZArith Lia.
Import ListNotations.
Open Scope string_scope.

(** ** Python values that flow through the class *)

(** The [value] attribute: [str | List[str]]. *)
Inductive pyvalue : Type :=
| VStr (s : string)
| VList (l : list string).

(** Exception classes of the Python run time that the module meets. *)
Inductive pyclass : Type :=
| Exception | KeyError | RuntimeError | AttributeError | TypeError
| ValueError | OSError | FileNotFoundError | FileExistsError
| PermissionError | StopIteration | BadZipFile | UnicodeDecodeError.

(** In Python 3 [IOError] is the same class object as [OSError]. *)
Definition IOError : pyclass := OSError.

Definition pyclass_eqb (c d : pyclass) : bool :=
  match c, d with
  | Exception, Exception | KeyError, KeyError | RuntimeError, RuntimeError
  | AttributeError, AttributeError | TypeError, TypeError
  | ValueError, ValueError | OSError, OSError
  | FileNotFoundError, FileNotFoundError
  | FileExistsError, FileExistsError | PermissionError, PermissionError
  | StopIteration, StopIteration | BadZipFile, BadZipFile
  | UnicodeDecodeError, UnicodeDecodeError => true
  | _, _ => false
  end.

(** [issubclass c d] for the classes above. *)
Definition issubclass (c d : pyclass) : bool :=
  pyclass_eqb c d ||
  match d, c with
  | Exception, _ => true
  | OSError, (FileNotFoundError | FileExistsError | PermissionError) => true
  | ValueError, UnicodeDecodeError => true
  | _, _ => false
  end.

(** Exceptions, one constructor per [raise] site of the module, plus [Lib]
    for what the libraries (pandas, geopandas, os, zipfile, pathlib) raise. *)
Inductive exn : Type :=
| Lib (cls : pyclass) (what : string)
| InfileAlreadySet (infile : string)     (* Exception("Infile '{}' is already set") *)
| NotFound (cause : exn)                 (* FileNotFoundError("{} not found. {}") *)
| NoFileFound                            (* FileNotFoundError("No file found") *)
| CannotRead (filename : string)         (* FileNotFoundError('Cannot read {}') *)
| DirectoryNotFound (cwd : string)       (* IOError("Directory '{}' not found.") *)
| ColumnNotFound (cause : exn)           (* KeyError("Column not found: {}") *)
| ValueWithoutTable                      (* KeyError("Cannot set value without specifying tabular data") *)
| ValueWithoutColumn                     (* KeyError("Cannot set value without specifying column") *)
| NoValue (column : string) (value : pyvalue)
                                         (* KeyError("Column '{}' has no value '{}'") *)
| NoTabularData                          (* RuntimeError("Unable to find tabular data to extract") *)
| NoInitializedColumn                    (* RuntimeError("No initialized column exists") *)
| UnableToFindColumn (column : string)   (* KeyError("Unable to find column '{}'") *)
| ExtractionFailed (cause : exn)         (* RuntimeError("Extraction failed:", e) *)
| InitializationFailed (cause : exn).    (* AttributeError("Initialization failed. {}") *)

(** The Python class of each exception. *)
Definition class_of (e : exn) : pyclass :=
  match e with
  | Lib cls _ => cls
  | InfileAlreadySet _ => Exception
  | NotFound _ | NoFileFound | CannotRead _ => FileNotFoundError
  | DirectoryNotFound _ => IOError
  | ColumnNotFound _ | ValueWithoutTable | ValueWithoutColumn
  | NoValue _ _ | UnableToFindColumn _ => KeyError
  | NoTabularData | NoInitializedColumn | ExtractionFailed _ => RuntimeError
  | InitializationFailed _ => AttributeError
  end.

(** The error taxonomy of the specification, read on the exceptions. *)
Definition AlreadyLoadedError (e : exn) : Prop := exists f, e = InfileAlreadySet f.
Definition ColumnNotFoundError (e : exn) : Prop := exists c, e = ColumnNotFound c.
Definition NoMatchError (e : exn) : Prop := exists c v, e = NoValue c v.
Definition NoDataError (e : exn) : Prop := e = NoTabularData.
Definition PreconditionError (e : exn) : Prop :=
  e = ValueWithoutTable \/ e = ValueWithoutColumn.
Definition NotFoundError (e : exn) : Prop :=
  (exists c, e = NotFound c) \/ e = NoFileFound.
Definition WriteError (e : exn) : Prop := exists c, e = ExtractionFailed c.
Definition is_IOError (e : exn) : bool := issubclass (class_of e) IOError.

(** ** Outcomes of a call *)

Inductive outcome (A : Type) : Type :=
| Returns (a : A)
| Raises (e : exn)
| OutOfFuel.
Arguments Returns {A} a.
Arguments Raises {A} e.
Arguments OutOfFuel {A}.

Definition obind {A B} (m : outcome A) (k : A -> outcome B) : outcome B :=
  match m with
  | Returns a => k a
  | Raises e => Raises e
  | OutOfFuel => OutOfFuel
  end.

(** [try: body / except: handler].  Running out of fuel is not an
    exception and is not caught. *)
Definition try_except {A} (body : outcome A) (handler : exn -> outcome A)
  : outcome A :=
  match body with
  | Raises e => handler e
  | r => r
  end.

Declare Scope outcome_scope.
Delimit Scope outcome_scope with outcome.
Notation "x <- m ;; k" := (obind m (fun x => k))
  (at level 100, m at next level, right associativity) : outcome_scope.

(** ** Data frames *)

(** A parsed shape, named by its text. *)
Definition geometry : Type := string.

Inductive cell : Type :=
| CStr (s : string)
| CInt (z : Z)
| CGeom (g : geometry)
| CNull.                                  (* None / NaN *)

Record row : Type := mkRow { label : cell; cells : list cell }.

(** A frame: its column labels in order, the name of its index, and its
    rows, each with its index label and one cell per column.  Column
    labels are unique, as in the data model of the specification; the
    operations below act on the first column that carries a label. *)
Record DataFrame : Type := mkDF {
  columns : list string;
  index_name : option string;
  rows : list row
}.

Record Series : Type := mkSeries { name : string; values : list cell }.

Definition index (df : DataFrame) : list cell := map label (rows df).
Definition nrows (df : DataFrame) : nat := length (rows df).

(** Position of the first column labelled [c]. *)
Fixpoint col_pos (cols : list string) (c : string) : option nat :=
  match cols with
  | [] => None
  | c' :: cols' =>
      if String.eqb c' c then Some 0
      else option_map S (col_pos cols' c)
  end.

Fixpoint remove_nth {A} (n : nat) (l : list A) : list A :=
  match n, l with
  | _, [] => []
  | 0, _ :: l' => l'
  | S n', a :: l' => a :: remove_nth n' l'
  end.

(** [df[c]] : the column as a series, [KeyError] when [c] is no column. *)
Definition getitem (df : DataFrame) (c : string) : outcome Series :=
  match col_pos (columns df) c with
  | Some i => Returns (mkSeries c (map (fun r => nth i (cells r) CNull) (rows df)))
  | None => Raises (Lib KeyError c)
  end.

(** [c in df.columns] *)
Definition has_column (df : DataFrame) (c : string) : bool :=
  match col_pos (columns df) c with Some _ => true | None => false end.

(** Python [==] between a cell and a [str]. *)
Definition cell_eq_str (c : cell) (s : string) : bool :=
  match c with
  | CStr s' => String.eqb s' s
  | _ => false
  end.

Fixpoint zip_eq (cs : list cell) (l : list string) : list bool :=
  match cs, l with
  | c :: cs', s :: l' => cell_eq_str c s :: zip_eq cs' l'
  | _, _ => []
  end.

(** [series == value].  Against a scalar the comparison is elementwise
    with the scalar; against a list pandas compares position by position
    and raises [ValueError] when the lengths differ. *)
Definition series_eq (s : Series) (value : pyvalue) : outcome (list bool) :=
  match value with
  | VStr v => Returns (map (fun c => cell_eq_str c v) (values s))
  | VList l =>
      if Nat.eqb (length l) (length (values s))
      then Returns (zip_eq (values s) l)
      else Raises (Lib ValueError "Lengths must match to compare")
  end.

(** [series.isin(value)] : only list-likes are accepted. *)
Definition isin (s : Series) (value : pyvalue) : outcome (list bool) :=
  match value with
  | VStr _ => Raises (Lib TypeError "only list-like objects are allowed to be passed to isin()")
  | VList l => Returns (map (fun c => existsb (cell_eq_str c) l) (values s))
  end.

Fixpoint select {A} (l : list A) (mask : list bool) : list A :=
  match l, mask with
  | a :: l', b :: mask' => if b then a :: select l' mask' else select l' mask'
  | _, _ => []
  end.

(** [df[mask]] : the rows where the mask holds. *)
Definition getitem_mask (df : DataFrame) (mask : list bool) : DataFrame :=
  mkDF (columns df) (index_name df) (select (rows df) mask).

(** [df.empty] : some axis has length zero. *)
Definition empty (df : DataFrame) : bool :=
  Nat.eqb (length (rows df)) 0 || Nat.eqb (length (columns df)) 0.

(** [df.set_index(c)] : the column becomes the index and leaves the
    columns. *)
Definition set_index (df : DataFrame) (c : string) : outcome DataFrame :=
  match col_pos (columns df) c with
  | Some i =>
      Returns (mkDF (remove_nth i (columns df)) (Some c)
                 (map (fun r => mkRow (nth i (cells r) CNull)
                                      (remove_nth i (cells r))) (rows df)))
  | None => Raises (Lib KeyError c)
  end.

(** [df.drop(columns=c)] *)
Definition drop (df : DataFrame) (c : string) : outcome DataFrame :=
  match col_pos (columns df) c with
  | Some i =>
      Returns (mkDF (remove_nth i (columns df)) (index_name df)
                 (map (fun r => mkRow (label r) (remove_nth i (cells r))) (rows df)))
  | None => Raises (Lib KeyError c)
  end.

Fixpoint append_cells (rs : list row) (vals : list cell) : list row :=
  match rs with
  | [] => []
  | r :: rs' =>
      mkRow (label r) (cells r ++ [hd CNull vals])%list :: append_cells rs' (tl vals)
  end.

(** [gpd.GeoDataFrame(df, geometry=vals)] on a frame without a [geometry]
    column: the column is appended; rows beyond the given values get null. *)
Definition with_geometry (df : DataFrame) (vals : list cell) : DataFrame :=
  mkDF (columns df ++ ["geometry"])%list (index_name df) (append_cells (rows df) vals).

(** [series.isna()] *)
Definition isna (c : cell) : bool :=
  match c with CNull => true | _ => false end.

(** ** Path strings ([str], [os.path], [pathlib]) *)

(** [s.lower()] on ASCII letters. *)
Definition lower_ascii (a : ascii) : ascii :=
  let n := nat_of_ascii a in
  if (65 <=? n)%nat && (n <=? 90)%nat then ascii_of_nat (n + 32) else a.

Fixpoint lower (s : string) : string :=
  match s with
  | EmptyString => EmptyString
  | String a s' => String (lower_ascii a) (lower s')
  end.

Fixpoint rfind_from (ch : ascii) (s : string) (i acc : Z) : Z :=
  match s with
  | EmptyString => acc
  | String a s' => rfind_from ch s' (i + 1)%Z (if Ascii.eqb a ch then i else acc)
  end.

(** [s.rfind(ch)] : the last position of [ch], [-1] when absent. *)
Definition rfind (ch : ascii) (s : string) : Z := rfind_from ch s 0%Z (-1)%Z.

(** The [while] loop of [genericpath._splitext]: is there, among the [n]
    characters from [filenameIndex] on, one that is not a dot? *)
Fixpoint not_all_dots (p : string) (filenameIndex n : nat) : bool :=
  match n with
  | 0 => false
  | S n' =>
      match String.get filenameIndex p with
      | Some a =>
          if Ascii.eqb a "."%char then not_all_dots p (S filenameIndex) n'
          else true
      | None => true
      end
  end.

(** [os.path.splitext(p)] *)
Definition splitext (p : string) : string * string :=
  let sepIndex := rfind "/"%char p in
  let dotIndex := rfind "."%char p in
  if (sepIndex <? dotIndex)%Z
     && not_all_dots p (Z.to_nat (sepIndex + 1)) (Z.to_nat (dotIndex - (sepIndex + 1)))
  then (String.substring 0 (Z.to_nat dotIndex) p,
        String.substring (Z.to_nat dotIndex) (String.length p - Z.to_nat dotIndex) p)
  else (p, EmptyString).

Definition startswith_slash (s : string) : bool :=
  match s with String "/"%char _ => true | _ => false end.

Fixpoint endswith_slash (s : string) : bool :=
  match s with
  | EmptyString => false
  | String a EmptyString => Ascii.eqb a "/"%char
  | String _ s' => endswith_slash s'
  end.

(** [os.path.join(a, b)] *)
Definition os_path_join (a b : string) : string :=
  if startswith_slash b then b
  else if String.eqb a "" || endswith_slash a then a ++ b
  else a ++ "/" ++ b.

Fixpoint split_on (sep : ascii) (s : string) : list string :=
  match s with
  | EmptyString => [EmptyString]
  | String a s' =>
      if Ascii.eqb a sep then EmptyString :: split_on sep s'
      else match split_on sep s' with
           | h :: t => String a h :: t
           | [] => [String a EmptyString]
           end
  end.

(** A [pathlib.Path] is its tuple of parts; an absolute path starts with
    the part ["/"].  The same normal form names a file for the operating
    system, so that ["a//b"], ["a/./b"] and ["a/b"] are one place. *)
Definition Path : Type := list string.

(** [pathlib.Path(s).parts] *)
Definition path_parts (s : string) : Path :=
  ((if startswith_slash s then ["/"] else [])
   ++ filter (fun c => negb (String.eqb c "" || String.eqb c "."))
        (split_on "/"%char s))%list.

(** [p.parent] *)
Definition parent (p : Path) : Path :=
  match p with
  | ["/"] => ["/"]
  | _ => removelast p
  end.

(** [str(p)] *)
Definition str_of_path (p : Path) : string :=
  match p with
  | [] => "."
  | "/" :: rest => "/" ++ String.concat "/" rest
  | _ => String.concat "/" p
  end.

(** What the module passes where a file name is expected: a [str] or a
    [pathlib.Path]. *)
Inductive pathlike : Type :=
| AsStr (s : string)
| AsPath (p : Path).

(** [os.fspath] and the place a path-like names. *)
Definition fspath (f : pathlike) : string :=
  match f with AsStr s => s | AsPath p => str_of_path p end.
Definition place (f : pathlike) : Path :=
  match f with AsStr s => path_parts s | AsPath p => p end.

Fixpoint path_eqb (p q : Path) : bool :=
  match p, q with
  | [], [] => true
  | a :: p', b :: q' => String.eqb a b && path_eqb p' q'
  | _, _ => false
  end.

(** ** The operating system and the file formats *)

(** The readers the module calls. *)
Inductive reader : Type :=
| read_csv            (* pd.read_csv(filename, low_memory=False) *)
| read_csv_latin1     (* pd.read_csv(filename, encoding='ISO-8859-1', ...) *)
| read_pickle | read_excel | read_html | read_json
| gpd_read_file.

(** The writers the module calls, with the options it passes. *)
Inductive writer : Type :=
| to_file (driver : option string)
| to_csv (index : bool)
| to_pickle
| to_excel (index : bool)
| to_html (index_names : bool)
| to_json
| to_latex (index : bool)
| to_markdown
| to_string.

(** A regular file is known by what each reader makes of it and, when it
    is a zip archive, by its members; a file the module wrote is known by
    the writer and the frame. *)
#[local] Set Warnings "-register-all".
Inductive content : Type :=
| File (parse : reader -> option DataFrame) (members : option (list (string * content)))
| Output (w : writer) (df : DataFrame).

Record OS : Type := mkOS {
  os_dirs : list Path;                  (* the directories, besides "." and "/" *)
  os_files : list (Path * content);     (* the regular files *)
  os_refused : Path -> bool;            (* places the system refuses to create or write *)
  os_stdout : list (writer * DataFrame) (* what was rendered to sys.stdout *)
}.

(** Calls that read or change the operating system. *)
Definition M (A : Type) : Type := OS -> outcome A * OS.

Definition ret {A} (a : A) : M A := fun os => (Returns a, os).
Definition raise {A} (e : exn) : M A := fun os => (Raises e, os).
Definition out_of_fuel {A} : M A := fun os => (OutOfFuel, os).
Definition lift {A} (r : outcome A) : M A := fun os => (r, os).

Definition bind {A B} (m : M A) (k : A -> M B) : M B :=
  fun os =>
    match m os with
    | (Returns a, os') => k a os'
    | (Raises e, os') => (Raises e, os')
    | (OutOfFuel, os') => (OutOfFuel, os')
    end.

(** [try: body / except ...: handler] on calls with effects: what the body
    did to the system before it raised stays done. *)
Definition try_ {A} (body : M A) (handler : exn -> M A) : M A :=
  fun os =>
    match body os with
    | (Raises e, os') => handler e os'
    | r => r
    end.

Declare Scope os_scope.
Delimit Scope os_scope with os.
Notation "x <- m ;; k" := (bind m (fun x => k))
  (at level 100, m at next level, right associativity) : os_scope.
Notation "m ;;; k" := (bind m (fun _ => k))
  (at level 100, right associativity) : os_scope.

Definition mem_path (p : Path) (l : list Path) : bool := existsb (path_eqb p) l.

Fixpoint lookup (p : Path) (files : list (Path * content)) : option content :=
  match files with
  | [] => None
  | (q, c) :: files' => if path_eqb p q then Some c else lookup p files'
  end.

Fixpoint store (p : Path) (c : content) (files : list (Path * content))
  : list (Path * content) :=
  match files with
  | [] => [(p, c)]
  | (q, c') :: files' =>
      if path_eqb p q then (p, c) :: files' else (q, c') :: store p c files'
  end.

(** [os.path.isdir] *)
Definition os_path_isdir (os : OS) (p : Path) : bool :=
  path_eqb p [] || path_eqb p ["/"] || mem_path p (os_dirs os).

(** All the prefixes of a path, shortest first, the path itself last. *)
Fixpoint prefixes (p : Path) : list Path :=
  match p with
  | [] => []
  | a :: p' => [a] :: map (cons a) (prefixes p')
  end.

Definition add_dirs (os : OS) (ps : list Path) : OS :=
  mkOS (os_dirs os ++ filter (fun q => negb (os_path_isdir os q)) ps)
       (os_files os) (os_refused os) (os_stdout os).

(** [os.makedirs(p)] : creates [p] and the missing directories above it;
    [FileExistsError] when [p] is already there. *)
Definition os_makedirs (p : Path) : M unit :=
  fun os =>
    if os_path_isdir os p
       || match lookup p (os_files os) with Some _ => true | None => false end
    then (Raises (Lib FileExistsError (str_of_path p)), os)
    else if os_refused os p
    then (Raises (Lib PermissionError (str_of_path p)), os)
    else (Returns tt, add_dirs os (prefixes p)).

(** Writing a regular file, as every writer of pandas and geopandas and
    [open(filename, 'w')] do: the directory must exist. *)
Definition write_file (p : Path) (c : content) : M unit :=
  fun os =>
    if negb (os_path_isdir os (parent p))
    then (Raises (Lib FileNotFoundError (str_of_path p)), os)
    else if os_refused os p || os_path_isdir os p
    then (Raises (Lib PermissionError (str_of_path p)), os)
    else (Returns tt,
          mkOS (os_dirs os) (store p c (os_files os)) (os_refused os) (os_stdout os)).

(** [frame.to_string(buf=sys.stdout)] *)
Definition print_stdout (w : writer) (df : DataFrame) : M unit :=
  fun os =>
    (Returns tt,
     mkOS (os_dirs os) (os_files os) (os_refused os) (os_stdout os ++ [(w, df)])).

(** One member of an archive written below [cwd], the directories on the
    way created when missing. *)
Definition extract_member (cwd : string) (m : string * content) : M unit :=
  fun os =>
    let target := path_parts (os_path_join cwd (fst m)) in
    if existsb (os_refused os) (prefixes target)
    then (Raises (Lib PermissionError (str_of_path target)), os)
    else write_file target (snd m) (add_dirs os (prefixes (parent target))).

Fixpoint extract_members (cwd : string) (ms : list (string * content)) : M unit :=
  match ms with
  | [] => ret tt
  | m :: ms' => bind (extract_member cwd m) (fun _ => extract_members cwd ms')
  end.

(** [with zipfile.ZipFile(filename, 'r') as zipped: zipped.extractall(cwd)] *)
Definition extractall (filename cwd : string) : M unit :=
  fun os =>
    match lookup (path_parts filename) (os_files os) with
    | None => (Raises (Lib FileNotFoundError filename), os)
    | Some (File _ (Some ms)) => extract_members cwd ms os
    | Some _ => (Raises (Lib BadZipFile filename), os)
    end.

(** [next(os.walk(cwd))] : the walk of something that is no directory
    yields nothing, and [next] raises [StopIteration]; otherwise the third
    component of the first triple is the names of the regular files
    immediately in [cwd]. *)
Definition next_os_walk (cwd : string) : M (list string) :=
  fun os =>
    let d := path_parts cwd in
    if os_path_isdir os d
    then (Returns
            (map (fun f => last (fst f) "")
               (filter (fun f => path_eqb (parent (fst f)) d
                                 && negb (path_eqb (fst f) d)) (os_files os))), os)
    else (Raises (Lib StopIteration cwd), os).

(** ** The class *)

(** What a caller may pass where the class expects a file name or a table:
    [None], a [str], a [pathlib.Path], a [bool], a data frame, or some
    other object that is no path (a [dict], a [list], a number), known by
    what the frame constructor makes of it. *)
Inductive pyobj : Type :=
| PyNone
| PyStr (s : string)
| PyPath (p : Path)
| PyBool (b : bool)
| PyFrame (df : DataFrame)
| PyOther (repr : string) (as_frame : option DataFrame).

(** [o is None] *)
Definition is_None (o : pyobj) : bool :=
  match o with PyNone => true | _ => false end.

(** [pathlib.Path(o)] : [TypeError] unless [o] is a [str] or a path. *)
Definition pathlib_Path (o : pyobj) : outcome Path :=
  match o with
  | PyStr s => Returns (path_parts s)
  | PyPath p => Returns p
  | _ => Raises (Lib TypeError "expected str, bytes or os.PathLike object")
  end.

(** [os.fspath(o)], as [os.path.splitext] applies it to its argument. *)
Definition os_fspath (o : pyobj) : outcome string :=
  match o with
  | PyStr s => Returns s
  | PyPath p => Returns (str_of_path p)
  | _ => Raises (Lib TypeError "expected str, bytes or os.PathLike object")
  end.

(** [gpd.GeoDataFrame(o)] : a frame is taken as it is; [None], a string,
    a path and a [bool] are refused by the constructor. *)
Definition GeoDataFrame (o : pyobj) : outcome DataFrame :=
  match o with
  | PyFrame df => Returns df
  | PyOther _ (Some df) => Returns df
  | _ => Raises (Lib ValueError "DataFrame constructor not properly called!")
  end.

(** The attributes of an instance. *)
Record ExtractTable : Type := mkET {
  __infile : option string;
  __outfile : option Path;
  __column : option string;
  __value : option pyvalue;
  __table : option DataFrame;
  __coldata : option Series;
  __foundval : bool;
  __extracted : option DataFrame
}.

Definition set__infile (self : ExtractTable) (v : option string) : ExtractTable :=
  mkET v (__outfile self) (__column self) (__value self) (__table self)
       (__coldata self) (__foundval self) (__extracted self).
Definition set__outfile (self : ExtractTable) (v : option Path) : ExtractTable :=
  mkET (__infile self) v (__column self) (__value self) (__table self)
       (__coldata self) (__foundval self) (__extracted self).
Definition set__column (self : ExtractTable) (v : option string) : ExtractTable :=
  mkET (__infile self) (__outfile self) v (__value self) (__table self)
       (__coldata self) (__foundval self) (__extracted self).
Definition set__value (self : ExtractTable) (v : option pyvalue) : ExtractTable :=
  mkET (__infile self) (__outfile self) (__column self) v (__table self)
       (__coldata self) (__foundval self) (__extracted self).
Definition set__table (self : ExtractTable) (v : option DataFrame) : ExtractTable :=
  mkET (__infile self) (__outfile self) (__column self) (__value self) v
       (__coldata self) (__foundval self) (__extracted self).
Definition set__coldata (self : ExtractTable) (v : option Series) : ExtractTable :=
  mkET (__infile self) (__outfile self) (__column self) (__value self) (__table self)
       v (__foundval self) (__extracted self).
Definition set__extracted (self : ExtractTable) (v : option DataFrame) : ExtractTable :=
  mkET (__infile self) (__outfile self) (__column self) (__value self) (__table self)
       (__coldata self) (__foundval self) v.

(** The getters. *)
Definition infile (self : ExtractTable) : option string := __infile self.
Definition outfile (self : ExtractTable) : option Path := __outfile self.
Definition column (self : ExtractTable) : option string := __column self.
Definition value (self : ExtractTable) : option pyvalue := __value self.

(** Truth value of [self.column] in a condition: [None] and the empty
    string are false. *)
Definition truthy (c : option string) : bool :=
  match c with
  | Some s => negb (String.eqb s "")
  | None => false
  end.

(** Subscripting and method calls on an attribute that may hold [None]. *)
Definition getitem_opt (t : option DataFrame) (c : string) : outcome Series :=
  match t with
  | Some df => getitem df c
  | None => Raises (Lib TypeError "'NoneType' object is not subscriptable")
  end.

Definition set_index_opt (t : option DataFrame) (c : option string)
  : outcome DataFrame :=
  match t, c with
  | None, _ => Raises (Lib AttributeError "'NoneType' object has no attribute 'set_index'")
  | Some _, None => Raises (Lib KeyError "None")
  | Some df, Some c => set_index df c
  end.

Fixpoint map_cells (f : cell -> option cell) (l : list cell) : outcome (list cell) :=
  match l with
  | [] => Returns []
  | c :: l' =>
      match f c with
      | Some c' => obind (map_cells f l') (fun r => Returns (c' :: r))
      | None => Raises (Lib ValueError "shapely.wkt.loads")
      end
  end.

(** [series.unique()] : the values in order of first appearance. *)
Definition cell_eqb (a b : cell) : bool :=
  match a, b with
  | CStr s, CStr s' => String.eqb s s'
  | CInt z, CInt z' => Z.eqb z z'
  | CGeom g, CGeom g' => String.eqb g g'
  | CNull, CNull => true
  | _, _ => false
  end.

Fixpoint unique_from (seen l : list cell) : list cell :=
  match l with
  | [] => []
  | c :: l' =>
      if existsb (cell_eqb c) seen then unique_from seen l'
      else c :: unique_from (c :: seen) l'
  end.
Definition unique (l : list cell) : list cell := unique_from [] l.


(** ** Sample data *)

(** A parser that knows points, and readers that take back what [to_csv]
    and [to_pickle] wrote. *)
Definition wkt_points (c : cell) : option cell :=
  match c with
  | CStr s => if String.prefix "POINT" s then Some (CGeom s) else None
  | _ => None
  end.

Definition reread_plain (w : writer) (df : DataFrame) (r : reader)
  : option DataFrame :=
  match w, r with
  | to_csv _, read_csv | to_pickle, read_pickle => Some df
  | _, _ => None
  end.

(** The table of the specification: columns [id, state, value] and rows
    [(a,CA,1), (b,CA,2), (c,NY,3)], as a caller builds it and as it is
    once loaded (with its column of null shapes). *)
Definition states_raw : DataFrame :=
  mkDF ["id"; "state"; "value"] None
    [ mkRow (CInt 0) [CStr "a"; CStr "CA"; CInt 1];
      mkRow (CInt 1) [CStr "b"; CStr "CA"; CInt 2];
      mkRow (CInt 2) [CStr "c"; CStr "NY"; CInt 3] ].

Definition states : DataFrame :=
  mkDF ["id"; "state"; "value"; "geometry"] None
    [ mkRow (CInt 0) [CStr "a"; CStr "CA"; CInt 1; CNull];
      mkRow (CInt 1) [CStr "b"; CStr "CA"; CInt 2; CNull];
      mkRow (CInt 2) [CStr "c"; CStr "NY"; CInt 3; CNull] ].

Definition states_CA : DataFrame :=
  mkDF ["id"; "state"; "value"; "geometry"] None
    [ mkRow (CInt 0) [CStr "a"; CStr "CA"; CInt 1; CNull];
      mkRow (CInt 1) [CStr "b"; CStr "CA"; CInt 2; CNull] ].

Definition states_nothing : DataFrame :=
  mkDF ["id"; "state"; "value"; "geometry"] None [].

Definition state_column : Series :=
  mkSeries "state" [CStr "CA"; CStr "CA"; CStr "NY"].

(** A table with a column labelled by the empty string. *)
Definition unnamed_raw : DataFrame :=
  mkDF [""; "x"] None
    [ mkRow (CInt 0) [CStr "a"; CInt 1];
      mkRow (CInt 1) [CStr "b"; CInt 2] ].

Definition unnamed : DataFrame :=
  mkDF [""; "x"; "geometry"] None
    [ mkRow (CInt 0) [CStr "a"; CInt 1; CNull];
      mkRow (CInt 1) [CStr "b"; CInt 2; CNull] ].

(** Instances: the table of states adopted from memory; then indexed by
    [state]; then filtered on [CA]; and the table with the unnamed column
    adopted from memory. *)
Definition et_states : ExtractTable :=
  mkET None None None None (Some states) None false None.

Definition et_by_state : ExtractTable :=
  mkET None None (Some "state") None (Some states) (Some state_column) false None.

Definition et_CA : ExtractTable :=
  mkET None None (Some "state") (Some (VStr "CA")) (Some states)
       (Some state_column) false (Some states_CA).

Definition et_unnamed : ExtractTable :=
  mkET None None None None (Some unnamed) None false None.

(** The table of states with an outfile below a directory that does not
    exist. *)
Definition et_states_out : ExtractTable :=
  mkET None (Some ["out"; "new"; "dir"; "result.csv"]) None None (Some states)
       None false None.

(** Operating systems: nothing at all; a file [in.csv] that [read_csv]
    parses to the table of states; an archive [data.zip] holding that
    file; an archive [data.zip] with no member. *)
Definition states_csv : content :=
  File (fun r => match r with read_csv => Some states_raw | _ => None end) None.

Definition os_nothing : OS := mkOS [] [] (fun _ => false) [].

Definition os_csv : OS :=
  mkOS [] [(["in.csv"], states_csv)] (fun _ => false) [].

Definition os_zip : OS :=
  mkOS [] [(["data.zip"], File (fun _ => None) (Some [("in.csv", states_csv)]))]
       (fun _ => false) [].

Definition os_empty_zip : OS :=
  mkOS [] [(["data.zip"], File (fun _ => None) (Some []))] (fun _ => false) [].

(** The archive with one member, where the system refuses to create the
    directory [data]. *)
Definition os_zip_refused : OS :=
  mkOS [] [(["data.zip"], File (fun _ => None) (Some [("in.csv", states_csv)]))]
       (fun p => path_eqb p ["data"]) [].

(** A table whose shapes are given as text, as a caller builds it and as
    it is once loaded. *)
Definition places_raw : DataFrame :=
  mkDF ["name"; "geometry"] None
    [ mkRow (CInt 0) [CStr "a"; CStr "POINT (0 0)"];
      mkRow (CInt 1) [CStr "b"; CStr "POINT (1 1)"] ].

Definition places : DataFrame :=
  mkDF ["name"; "geometry"] None
    [ mkRow (CInt 0) [CStr "a"; CGeom "POINT (0 0)"];
      mkRow (CInt 1) [CStr "b"; CGeom "POINT (1 1)"] ].

Definition et_places : ExtractTable :=
  mkET None None None None (Some places) None false None.

(** The table of states read from [in.csv]; and the instance the command
    line [in.csv -o out/new/dir/result.csv -c state -v CA] constructs. *)
Definition et_csv : ExtractTable :=
  mkET (Some "in.csv") None None None (Some states) None false None.

Definition et_cli : ExtractTable :=
  mkET (Some "in.csv") (Some ["out"; "new"; "dir"; "result.csv"]) (Some "state")
       (Some (VList ["CA"])) (Some states) (Some state_column) false
       (Some states_CA).




Section Methods.

(** [shapely.wkt.loads] applied to a cell of a [geometry] column: the
    parsed cell, or [None] when the parser raises. *)
Variable wkt_loads : cell -> option cell.

(** What a reader makes of a file that one of the writers produced. *)
Variable reread : writer -> DataFrame -> reader -> option DataFrame.

(** A reader of pandas or geopandas applied to a file name. *)
Definition read_with (r : reader) (filename : string) : M DataFrame :=
  fun os =>
    match lookup (path_parts filename) (os_files os) with
    | None => (Raises (Lib FileNotFoundError filename), os)
    | Some (File parse _) =>
        match parse r with
        | Some df => (Returns df, os)
        | None => (Raises (Lib ValueError filename), os)
        end
    | Some (Output w df) =>
        match reread w df r with
        | Some df' => (Returns df', os)
        | None => (Raises (Lib ValueError filename), os)
        end
    end.

(** *** Private helpers *)

Definition __geometrize_gdf (gdf : DataFrame) : DataFrame :=
  match (s <- getitem gdf "geometry" ;;
         geometry <- map_cells wkt_loads (values s) ;;
         geometrized <- drop gdf "geometry" ;;
         Returns (with_geometry geometrized geometry))%outcome with
  | Returns r => r
  | _ =>
      if negb (has_column gdf "geometry")
      then with_geometry gdf []
      else gdf
  end.

Definition __reindex (self : ExtractTable) : outcome DataFrame :=
  match value self with
  | Some _ =>
      obind (set_index_opt (__extracted self) (column self))
            (fun df => Returns (__geometrize_gdf df))
  | None =>
      obind (set_index_opt (__table self) (column self))
            (fun df => Returns (__geometrize_gdf df))
  end.

Definition __get_extension (filename : string) : string :=
  lower (snd (splitext filename)).

Definition __has_spatial_data (gdf : DataFrame) : outcome bool :=
  obind (getitem gdf "geometry")
        (fun s => Returns (negb (forallb isna (values s)))).

Definition __read_inferred (filename ext : string) : M DataFrame :=
  if String.eqb ext ".csv" then
    try_ (read_with read_csv filename)
         (fun _ => read_with read_csv_latin1 filename)
  else if String.eqb ext ".pkl" || String.eqb ext ".bz2" || String.eqb ext ".zip"
          || String.eqb ext ".gzip" || String.eqb ext ".xz" then
    read_with read_pickle filename
  else if String.eqb ext ".xlsx" then read_with read_excel filename
  else if String.eqb ext ".html" then read_with read_html filename
  else if String.eqb ext ".json" then read_with read_json filename
  else raise (CannotRead filename).

Definition __unzip (filename : string) : M (list string) :=
  let cwd := fst (splitext filename) in
  (extractall filename cwd ;;;
   isdir <- (fun os => (Returns (PyBool (os_path_isdir os (path_parts cwd))), os)) ;;
   if is_None isdir
   then raise (DirectoryNotFound cwd)
   else (files <- next_os_walk cwd ;;
         ret (map (os_path_join cwd) files)))%os.

(** The loop of [__read_zip]: the first member that reads wins, a member
    that fails is skipped. *)
Fixpoint read_first (read : string -> M (string * DataFrame)) (files : list string)
  : M (string * DataFrame) :=
  match files with
  | [] => raise NoFileFound
  | file :: files' => try_ (read file) (fun _ => read_first read files')
  end.

(** [__read_file] and [__read_zip] call each other; each descent into an
    archive takes one unit of fuel. *)
Fixpoint __read_file (fuel : nat) (filename : pyobj) : M (string * DataFrame) :=
  match os_fspath filename with
  | Returns f =>
      let ext := __get_extension f in
      if negb (String.eqb ext ".zip") then
        try_ (df <- __read_inferred f ext ;; ret (f, __geometrize_gdf df))%os
             (fun _ => (df <- read_with gpd_read_file f ;;
                        ret (f, __geometrize_gdf df))%os)
      else
        match fuel with
        | 0 => out_of_fuel
        | S fuel' =>
            (files <- __unzip f ;;
             read_first (fun file => __read_file fuel' (PyStr file)) files)%os
        end
  | Raises e => raise e
  | OutOfFuel => out_of_fuel
  end.

Definition __read_zip (fuel : nat) (filename : string) : M (string * DataFrame) :=
  (files <- __unzip filename ;;
   read_first (fun file => __read_file fuel (PyStr file)) files)%os.

(** *** Setters *)

(** The infile setter reads files and may unpack archives: it hands back
    its outcome, the instance and the operating system as it left them.
    The other setters touch the instance only. *)
Definition infile_setter (fuel : nat) (self : ExtractTable) (infile' : pyobj)
  : OS -> outcome unit * ExtractTable * OS :=
  fun os =>
    if negb (is_None infile') then
      match __infile self with
      | Some f => (Raises (InfileAlreadySet f), self, os)
      | None =>
          match __read_file fuel infile' os with
          | (Returns (name', gdf), os') =>
              (Returns tt, set__table (set__infile self (Some name')) (Some gdf), os')
          | (Raises _, os') =>
              let self1 := set__infile self None in
              match GeoDataFrame infile' with
              | Returns df =>
                  (Returns tt, set__table self1 (Some (__geometrize_gdf df)), os')
              | Raises e => (Raises (NotFound e), self1, os')
              | OutOfFuel => (OutOfFuel, self1, os')
              end
          | (OutOfFuel, os') => (OutOfFuel, self, os')
          end
      end
    else (Returns tt, self, os).

Definition outfile_setter (self : ExtractTable) (filename : pyobj)
  : outcome unit * ExtractTable :=
  match pathlib_Path filename with
  | Returns p => (Returns tt, set__outfile self (Some p))
  | _ => (Returns tt, set__outfile self None)
  end.

Definition column_setter (self : ExtractTable) (column' : option string)
  : outcome unit * ExtractTable :=
  match column' with
  | Some c =>
      match getitem_opt (__table self) c with
      | Returns s =>
          (Returns tt,
           set__value (set__column (set__coldata self (Some s)) (Some c)) None)
      | Raises e => (Raises (ColumnNotFound e), self)
      | OutOfFuel => (OutOfFuel, self)
      end
  | None => (Returns tt, self)
  end.

(** The two attempts of the value setter: [==], and [isin] when [==]
    raises. *)
Definition filter_rows (t : option DataFrame) (c : option string) (v : pyvalue)
  : outcome DataFrame :=
  match t, c with
  | Some t, Some c =>
      try_except
        (s <- getitem t c ;; mask <- series_eq s v ;;
         Returns (getitem_mask t mask))%outcome
        (fun _ =>
           (s <- getitem t c ;; mask <- isin s v ;;
            Returns (getitem_mask t mask))%outcome)
  | _, _ => Raises (Lib TypeError "'NoneType' object is not subscriptable")
  end.

Definition value_setter (self : ExtractTable) (value' : option pyvalue)
  : outcome unit * ExtractTable :=
  match value' with
  | Some v =>
      match __table self with
      | None => (Raises ValueWithoutTable, self)
      | Some _ =>
          match column self with
          | None => (Raises ValueWithoutColumn, self)
          | Some c =>
              match filter_rows (__table self) (column self) v with
              | Returns rows' =>
                  let self1 := set__extracted self (Some rows') in
                  if empty rows'
                  then (Raises (NoValue c v), self1)
                  else (Returns tt, set__value self1 (Some v))
              | Raises e => (Raises e, self)
              | OutOfFuel => (OutOfFuel, self)
              end
          end
      end
  | None => (Returns tt, self)
  end.

(** *** Public methods *)

Definition extract (self : ExtractTable) : outcome DataFrame :=
  match __table self with
  | None => Raises NoTabularData
  | Some t =>
      if truthy (column self) then __reindex self
      else Returns t
  end.

Definition __extract_to_inferred_file (self : ExtractTable) (df : DataFrame)
  (filename : pathlike) (ext : string) : M unit :=
  let has_index := match column self with Some _ => true | None => false end in
  if String.eqb ext ".csv" then write_file (place filename) (Output (to_csv has_index) df)
  else if String.eqb ext ".pkl" || String.eqb ext ".bz2" || String.eqb ext ".zip"
          || String.eqb ext ".gzip" || String.eqb ext ".xz" then
    write_file (place filename) (Output to_pickle df)
  else if String.eqb ext ".xlsx" then
    write_file (place filename) (Output (to_excel has_index) df)
  else if String.eqb ext ".html" then
    write_file (place filename) (Output (to_html has_index) df)
  else if String.eqb ext ".json" then write_file (place filename) (Output to_json df)
  else if String.eqb ext ".tex" then
    write_file (place filename) (Output (to_latex has_index) df)
  else if String.eqb ext ".md" then write_file (place filename) (Output to_markdown df)
  else write_file (place filename) (Output to_string df).

(** The body of the outer [try] of [extract_to_file]. *)
Definition write_extracted (self : ExtractTable) (gdf : DataFrame)
  (is_geometric : bool) (filename : pathlike) (ext : string)
  (driver : option string) : M unit :=
  if is_geometric && String.eqb ext ".shp" then
    write_file (place filename) (Output (to_file None) gdf)
  else if is_geometric && String.eqb ext ".geojson" then
    write_file (place filename) (Output (to_file (Some "GeoJSON")) gdf)
  else if is_geometric && String.eqb ext ".gpkg" then
    write_file (place filename) (Output (to_file (Some "GPKG")) gdf)
  else if is_geometric && (match driver with Some _ => true | None => false end) then
    write_file (place filename) (Output (to_file driver) gdf)
  else if is_geometric then
    __extract_to_inferred_file self gdf filename ext
  else
    (df <- lift (drop gdf "geometry") ;;
     __extract_to_inferred_file self df filename ext)%os.

(** [self.__outfile.parent] *)
Definition outfile_parent (self : ExtractTable) : outcome Path :=
  match __outfile self with
  | Some p => Returns (parent p)
  | None => Raises (Lib AttributeError "'NoneType' object has no attribute 'parent'")
  end.

(** The body of [extract_to_file], the call of the method inside its own
    handler left open as [retry]. *)
Definition extract_to_file_body (retry : M unit) (self : ExtractTable)
  (outfile' driver : option string) : M unit :=
  (gdf <- lift (extract self) ;;
   is_geometric <- lift (__has_spatial_data gdf) ;;
   let filename :=
     match outfile' with
     | None => option_map AsPath (outfile self)
     | Some s => Some (AsStr s)
     end in
   match filename with
   | None =>
       if is_geometric then print_stdout to_string gdf
       else (df <- lift (drop gdf "geometry") ;; print_stdout to_string df)
   | Some filename =>
       let ext := __get_extension (fspath filename) in
       try_ (write_extracted self gdf is_geometric filename ext driver)
            (fun e =>
               try_ (dir <- lift (outfile_parent self) ;;
                     os_makedirs dir ;;;
                     retry)
                    (fun _ => raise (ExtractionFailed e)))
   end)%os.

(** [extract_to_file] : each call of the method inside its own handler
    takes one unit of fuel. *)
Fixpoint extract_to_file (fuel : nat) (self : ExtractTable)
  (outfile' driver : option string) : M unit :=
  extract_to_file_body
    match fuel with
    | 0 => out_of_fuel
    | S fuel' => extract_to_file fuel' self outfile' driver
    end
    self outfile' driver.

Definition list_columns (self : ExtractTable) : outcome (list string) :=
  match __table self with
  | None => Raises NoTabularData
  | Some t =>
      obind (__has_spatial_data t)
        (fun spatial =>
           if spatial then Returns (columns t)
           else Returns (filter (fun c => negb (String.eqb c "geometry")) (columns t)))
  end.

Definition list_values (self : ExtractTable) (column' : option string)
  (unique' : bool) : outcome (list cell) :=
  match __table self with
  | None => Raises NoTabularData
  | Some t =>
      match column' with
      | Some c =>
          try_except
            (obind (getitem t c)
               (fun s => Returns (if unique' then unique (values s) else values s)))
            (fun _ => Raises (UnableToFindColumn c))
      | None =>
          match column self with
          | Some c =>
              obind (getitem t c)
                (fun s => Returns (if unique' then unique (values s) else values s))
          | None => Raises NoInitializedColumn
          end
      end
  end.

(** *** Construction *)

(** The attributes as [__init__] sets them before the setters run. *)
Definition blank : ExtractTable :=
  mkET None None None None None None false None.

(** [__sanitize_init] : the four setters in order; the first exception
    becomes an [AttributeError] and no instance is handed out. *)
Definition __sanitize_init (fuel : nat) (self : ExtractTable)
  (infile' outfile' : pyobj) (column' : option string) (value' : option pyvalue)
  : M ExtractTable :=
  fun os =>
    match infile_setter fuel self infile' os with
    | (Returns _, self1, os1) =>
        match outfile_setter self1 outfile' with
        | (Returns _, self2) =>
            match column_setter self2 column' with
            | (Returns _, self3) =>
                match value_setter self3 value' with
                | (Returns _, self4) => (Returns self4, os1)
                | (Raises e, _) => (Raises (InitializationFailed e), os1)
                | (OutOfFuel, _) => (OutOfFuel, os1)
                end
            | (Raises e, _) => (Raises (InitializationFailed e), os1)
            | (OutOfFuel, _) => (OutOfFuel, os1)
            end
        | (Raises e, _) => (Raises (InitializationFailed e), os1)
        | (OutOfFuel, _) => (OutOfFuel, os1)
        end
    | (Raises e, _, os1) => (Raises (InitializationFailed e), os1)
    | (OutOfFuel, _, os1) => (OutOfFuel, os1)
    end.

Definition __init__ (fuel : nat) (infile' outfile' : pyobj)
  (column' : option string) (value' : option pyvalue) : M ExtractTable :=
  __sanitize_init fuel blank infile' outfile' column' value'.

(** The module function [read_file]. *)
Definition read_file (fuel : nat) (filename : string)
  (column' : option string) (value' : option pyvalue) : M ExtractTable :=
  __init__ fuel (PyStr filename) PyNone column' value'.

(** *** The calls a client can make, and the states they reach *)

Inductive call : Type :=
| SetInfile (infile' : pyobj)
| SetOutfile (outfile' : pyobj)
| SetColumn (column' : option string)
| SetValue (value' : option pyvalue)
| Extract
| ExtractToFile (outfile' driver : option string)
| ListColumns
| ListValues (column' : option string) (unique' : bool).

(** What a call hands back to the client. *)
Inductive answer : Type :=
| Nothing
| Frame (df : DataFrame)
| Labels (l : list string)
| Cells (l : list cell).

Definition answers {A} (f : A -> answer) (r : outcome A) : outcome answer :=
  obind r (fun a => Returns (f a)).

(** A call on an instance: its outcome, and the instance and the
    operating system as the call leaves them.  The setters assign to the
    attributes; the other methods assign to none. *)
Definition run (fuel : nat) (c : call) (self : ExtractTable) (os : OS)
  : outcome answer * ExtractTable * OS :=
  match c with
  | SetInfile o =>
      let r := infile_setter fuel self o os in
      (answers (fun _ => Nothing) (fst (fst r)), snd (fst r), snd r)
  | SetOutfile o =>
      let r := outfile_setter self o in
      (answers (fun _ => Nothing) (fst r), snd r, os)
  | SetColumn c =>
      let r := column_setter self c in
      (answers (fun _ => Nothing) (fst r), snd r, os)
  | SetValue v =>
      let r := value_setter self v in
      (answers (fun _ => Nothing) (fst r), snd r, os)
  | Extract => (answers Frame (extract self), self, os)
  | ExtractToFile o d =>
      let r := extract_to_file fuel self o d os in
      (answers (fun _ => Nothing) (fst r), self, snd r)
  | ListColumns => (answers Labels (list_columns self), self, os)
  | ListValues c u => (answers Cells (list_values self c u), self, os)
  end.

(** The instance after a call. *)
Definition after (fuel : nat) (c : call) (self : ExtractTable) (os : OS)
  : ExtractTable :=
  snd (fst (run fuel c self os)).

(** An instance is reachable when a constructor call handed it out, or
    when a call was made on a reachable instance. *)
Inductive reachable : ExtractTable -> Prop :=
| reach_init fuel infile' outfile' column' value' os self os' :
    __init__ fuel infile' outfile' column' value' os = (Returns self, os') ->
    reachable self
| reach_call fuel c self os :
    reachable self ->
    reachable (after fuel c self os).

(** A value needs a column, a column needs a table. *)
Definition invariant (self : ExtractTable) : Prop :=
  (value self <> None -> column self <> None) /\
  (column self <> None -> __table self <> None).

(** What a setter may do to the three attributes of the invariant. *)
Definition keeps (self self' : ExtractTable) : Prop :=
  column self' = column self /\ value self' = value self
  /\ (__table self <> None -> __table self' <> None).

(** *** The derived views, in the words of the specification *)

(** A row passes the [value] predicate when its [column] entry equals the
    value (scalar) or is a member of it (list). *)
Definition spec_passes (v : pyvalue) (c : cell) : bool :=
  match v with
  | VStr s => cell_eq_str c s
  | VList l => existsb (cell_eq_str c) l
  end.

(** [filteredTable] : the rows of [table] passing the [value] predicate if
    [value] is set, else [table]. *)
Definition spec_filteredTable (self : ExtractTable) : option DataFrame :=
  match __table self, value self with
  | Some t, None => Some t
  | Some t, Some v =>
      match column self with
      | Some c =>
          match getitem t c with
          | Returns s => Some (getitem_mask t (map (spec_passes v) (values s)))
          | _ => None
          end
      | None => None
      end
  | None, _ => None
  end.

(** *** The command line *)


(** *** Instances reached from a given one *)

Inductive reaches (self0 : ExtractTable) : ExtractTable -> Prop :=
| reaches_refl : reaches self0 self0
| reaches_call fuel c self os :
    reaches self0 self ->
    reaches self0 (after fuel c self os).

(** Every loaded table carries a [geometry] column. *)
Definition has_geometry (self : ExtractTable) : Prop :=
  forall t, __table self = Some t -> has_column t "geometry" = true.

(** The state of an instance loaded from a path: the infile and the table
    are there, the column (when set) is a column of the table, and the
    cached selection (when a value is set) has the columns of the table. *)
Definition path_loaded (self : ExtractTable) : Prop :=
  exists f t,
    __infile self = Some f /\ __table self = Some t
    /\ (forall c, column self = Some c -> has_column t c = true)
    /\ (value self <> None ->
        exists sel, __extracted self = Some sel /\ columns sel = columns t).


(** A frame is rectangular when every row has one cell per column. *)
Definition rectangular (df : DataFrame) : Prop :=
  Forall (fun r => length (cells r) = length (columns df)) (rows df).

(** ** Properties *)

(** *** Data frames *)

Lemma has_column_getitem (df : DataFrame) (c : string) :
  has_column df c = true -> exists s, getitem df c = Returns s.
Proof.
  unfold has_column, getitem.
  destruct (col_pos (columns df) c) as [i|]; [eauto | discriminate].
Qed.

Lemma no_column_getitem (df : DataFrame) (c : string) :
  has_column df c = false -> getitem df c = Raises (Lib KeyError c).
Proof.
  unfold has_column, getitem.
  destruct (col_pos (columns df) c); [discriminate | reflexivity].
Qed.

Lemma getitem_length (df : DataFrame) (c : string) (s : Series) :
  getitem df c = Returns s -> length (values s) = nrows df.
Proof.
  unfold getitem, nrows. destruct (col_pos (columns df) c); [|discriminate].
  intros H; injection H as <-. simpl. apply length_map.
Qed.

Lemma append_cells_labels (rs : list row) :
  forall vals, map label (append_cells rs vals) = map label rs.
Proof.
  induction rs as [|r rs IH]; intros vals; simpl; [reflexivity|].
  now rewrite IH.
Qed.

Lemma with_geometry_index (df : DataFrame) (vals : list cell) :
  index (with_geometry df vals) = index df
  /\ index_name (with_geometry df vals) = index_name df.
Proof.
  unfold index, with_geometry; simpl. now rewrite append_cells_labels.
Qed.

Lemma drop_index (df df' : DataFrame) (c : string) :
  drop df c = Returns df' ->
  index df' = index df /\ index_name df' = index_name df.
Proof.
  unfold drop. destruct (col_pos (columns df) c); [|discriminate].
  intros H; injection H as <-. unfold index; simpl.
  now rewrite map_map.
Qed.

Lemma index_length (df : DataFrame) : length (index df) = nrows df.
Proof. unfold index, nrows. apply length_map. Qed.

Lemma set_index_spec (df : DataFrame) (c : string) :
  has_column df c = true ->
  exists s df',
    getitem df c = Returns s /\ set_index df c = Returns df'
    /\ index df' = values s /\ index_name df' = Some c.
Proof.
  unfold has_column, getitem, set_index.
  destruct (col_pos (columns df) c) as [i|]; [|discriminate].
  intros _. eexists; eexists. repeat split.
  unfold index; simpl. now rewrite map_map.
Qed.

Lemma geometrize_index (df : DataFrame) :
  index (__geometrize_gdf df) = index df
  /\ index_name (__geometrize_gdf df) = index_name df.
Proof.
  unfold __geometrize_gdf.
  destruct (getitem df "geometry") as [s|e|]; simpl.
  - destruct (map_cells wkt_loads (values s)) as [g|e|]; simpl.
    + destruct (drop df "geometry") as [d|e|] eqn:Hd; simpl.
      * destruct (drop_index _ _ _ Hd) as [Hi Hn].
        destruct (with_geometry_index d g) as [Hi' Hn'].
        split; congruence.
      * destruct (has_column df "geometry"); simpl;
          [auto | apply with_geometry_index].
      * destruct (has_column df "geometry"); simpl;
          [auto | apply with_geometry_index].
    + destruct (has_column df "geometry"); simpl;
        [auto | apply with_geometry_index].
    + destruct (has_column df "geometry"); simpl;
        [auto | apply with_geometry_index].
  - destruct (has_column df "geometry"); simpl;
      [auto | apply with_geometry_index].
  - destruct (has_column df "geometry"); simpl;
      [auto | apply with_geometry_index].
Qed.

Lemma geometrize_nrows (df : DataFrame) :
  nrows (__geometrize_gdf df) = nrows df.
Proof.
  rewrite <- !index_length. now destruct (geometrize_index df) as [-> _].
Qed.

Lemma truthy_nonempty (c : string) : c <> "" -> truthy (Some c) = true.
Proof.
  intros H. simpl. destruct (String.eqb_spec c ""); [contradiction | reflexivity].
Qed.

(** *** Setters *)

Lemma column_setter_found (self : ExtractTable) (t : DataFrame) (c : string) :
  __table self = Some t -> has_column t c = true ->
  exists s,
    getitem t c = Returns s
    /\ column_setter self (Some c)
       = (Returns tt, set__value (set__column (set__coldata self (Some s)) (Some c)) None).
Proof.
  intros Ht Hc. destruct (has_column_getitem t c Hc) as [s Hs].
  exists s. split; [assumption|].
  unfold column_setter, getitem_opt. now rewrite Ht, Hs.
Qed.

Lemma column_setter_missing (self : ExtractTable) (t : DataFrame) (c : string) :
  __table self = Some t -> has_column t c = false ->
  column_setter self (Some c) = (Raises (ColumnNotFound (Lib KeyError c)), self).
Proof.
  intros Ht Hc. unfold column_setter, getitem_opt.
  now rewrite Ht, (no_column_getitem t c Hc).
Qed.

(** C3.  On a loaded table, setting the column to an existing column
    returns, stores the name and clears the value, the table staying as it
    was; setting it to a name that is no column raises the [KeyError]
    "Column not found" and leaves the whole instance, column and value
    included, as it was. *)
Theorem column_setter_spec (self : ExtractTable) (t : DataFrame) (c : string) :
  __table self = Some t ->
  (has_column t c = true ->
   fst (column_setter self (Some c)) = Returns tt
   /\ column (snd (column_setter self (Some c))) = Some c
   /\ value (snd (column_setter self (Some c))) = None
   /\ __table (snd (column_setter self (Some c))) = Some t)
  /\
  (has_column t c = false ->
   exists e,
     column_setter self (Some c) = (Raises e, self) /\ ColumnNotFoundError e).
Proof.
  intros Ht. split; intros Hc.
  - destruct (column_setter_found self t c Ht Hc) as [s [_ ->]].
    simpl. auto.
  - rewrite (column_setter_missing self t c Ht Hc).
    eexists. split; [reflexivity|]. now eexists.
Qed.

(** *** [extract] *)

Lemma invariant_value_unset (self : ExtractTable) :
  invariant self -> column self = None -> value self = None.
Proof.
  intros [Hv _] Hc. destruct (value self) as [v|] eqn:E; [|reflexivity].
  exfalso. apply Hv; [discriminate | assumption].
Qed.

(** C4.  With no table loaded [extract] raises the [RuntimeError] "Unable
    to find tabular data to extract"; with a table loaded and no column
    set it returns the loaded table itself, which is the filtered table
    of the specification in every state that satisfies the invariant. *)
Theorem extract_spec (self : ExtractTable) :
  (__table self = None ->
   exists e, extract self = Raises e /\ NoDataError e)
  /\
  (forall t, __table self = Some t -> column self = None ->
     extract self = Returns t
     /\ (invariant self -> spec_filteredTable self = Some t)).
Proof.
  split.
  - intros Ht. exists NoTabularData. unfold extract. rewrite Ht.
    split; reflexivity.
  - intros t Ht Hc. split.
    + unfold extract. now rewrite Ht, Hc.
    + intros Hinv. unfold spec_filteredTable.
      now rewrite Ht, (invariant_value_unset self Hinv Hc).
Qed.

(** C10.  On a loaded table that has a column labelled by the empty
    string, setting the column to the empty string returns and stores it;
    [extract] then takes the branch of an unset column and returns the
    loaded table itself, not reindexed. *)
Theorem empty_label_not_reindexed (self : ExtractTable) (t : DataFrame) :
  __table self = Some t -> has_column t "" = true ->
  fst (column_setter self (Some "")) = Returns tt
  /\ column (snd (column_setter self (Some ""))) = Some ""
  /\ extract (snd (column_setter self (Some ""))) = Returns t
  /\ extract (snd (column_setter self (Some "")))
     = extract (set__column (snd (column_setter self (Some ""))) None).
Proof.
  intros Ht Hc.
  destruct (column_setter_found self t "" Ht Hc) as [s [_ ->]].
  unfold extract; simpl. rewrite Ht. auto.
Qed.

(** With a non-empty label the extracted frame is indexed by the column
    and has the rows of the table. *)
Lemma extract_after_column (self : ExtractTable) (t : DataFrame) (c : string) :
  __table self = Some t -> has_column t c = true -> c <> "" ->
  exists s r,
    getitem t c = Returns s
    /\ extract (snd (column_setter self (Some c))) = Returns r
    /\ index r = values s
    /\ index_name r = Some c
    /\ nrows r = nrows t.
Proof.
  intros Ht Hc Hne.
  destruct (column_setter_found self t c Ht Hc) as [s [Hs ->]].
  destruct (set_index_spec t c Hc) as [s' [df' [Hs' [Hdf' [Hi Hn]]]]].
  assert (s' = s) by congruence; subst s'.
  exists s, (__geometrize_gdf df'). split; [assumption|].
  unfold extract; simpl. rewrite Ht.
  destruct (String.eqb_spec c ""); [contradiction|]. simpl.
  unfold __reindex; simpl. rewrite Ht; simpl. rewrite Hdf'; simpl.
  split; [reflexivity|].
  destruct (geometrize_index df') as [Hgi Hgn].
  repeat split; try congruence.
  rewrite <- (index_length (__geometrize_gdf df')), Hgi, Hi.
  now apply (getitem_length t c).
Qed.

(** C9.  The outfile setter returns for every argument: an argument that
    [pathlib.Path] accepts is stored as that path, and any other argument,
    [None] included, resets the outfile to [None]. *)
Theorem outfile_setter_spec (self : ExtractTable) (filename : pyobj) :
  fst (outfile_setter self filename) = Returns tt
  /\ (forall p, pathlib_Path filename = Returns p ->
        outfile (snd (outfile_setter self filename)) = Some p)
  /\ ((forall p, pathlib_Path filename <> Returns p) ->
        outfile (snd (outfile_setter self filename)) = None)
  /\ outfile (snd (outfile_setter self PyNone)) = None.
Proof.
  unfold outfile_setter.
  destruct (pathlib_Path filename) as [p|e|] eqn:E; simpl; repeat split; auto.
  - intros q Hq. congruence.
  - intros H. now destruct (H p).
  - discriminate.
  - discriminate.
Qed.

(** The value setter on a filter that selects nothing: the [KeyError]
    "Column ... has no value ..." is raised and the stored value stays,
    but the empty selection has already been stored in [__extracted]. *)
Lemma value_setter_no_match (self : ExtractTable) (c : string) (v : pyvalue)
  (sel : DataFrame) :
  column self = Some c ->
  filter_rows (__table self) (column self) v = Returns sel ->
  empty sel = true ->
  value_setter self (Some v) = (Raises (NoValue c v), set__extracted self (Some sel)).
Proof.
  intros Hc Hf He. unfold value_setter.
  destruct (__table self) as [t|] eqn:Ht.
  - rewrite Hc. rewrite Hc in Hf. rewrite Hf, He. reflexivity.
  - rewrite Hc in Hf. discriminate.
Qed.

(** *** Loading *)

Lemma infile_setter_already_set (fuel : nat) (self : ExtractTable)
  (infile' : pyobj) (os : OS) (f : string) :
  __infile self = Some f -> is_None infile' = false ->
  infile_setter fuel self infile' os = (Raises (InfileAlreadySet f), self, os).
Proof.
  intros Hf Hn. unfold infile_setter. now rewrite Hn, Hf.
Qed.

Lemma infile_setter_from_path (fuel : nat) (self self' : ExtractTable)
  (origin : pyobj) (p : string) (os os' : OS) :
  os_fspath origin = Returns p ->
  infile_setter fuel self origin os = (Returns tt, self', os') ->
  exists f t, __infile self' = Some f /\ __table self' = Some t.
Proof.
  intros Hp. unfold infile_setter.
  assert (Hg : exists e, GeoDataFrame origin = Raises e)
    by (destruct origin; try discriminate Hp; simpl; eauto).
  destruct Hg as [e' Hg]. rewrite Hg.
  assert (Hn : is_None origin = false)
    by (destruct origin; try discriminate Hp; reflexivity).
  rewrite Hn; simpl.
  destruct (__infile self) as [f|]; [discriminate|].
  destruct (__read_file fuel origin os) as [[[f t]|e|] os1].
  - intros H; injection H as <- _. simpl. eauto.
  - discriminate.
  - discriminate.
Qed.

(** C2, amended.  Once a load from a path (a [str] or a [pathlib.Path])
    has succeeded, every further load with an origin that is not [None]
    raises the exception "Infile ... is already set" and leaves the
    instance, its table included, and the operating system as they
    were. *)
Theorem load_twice_from_path (fuel : nat) (self0 self : ExtractTable)
  (origin : pyobj) (p : string) (os0 os1 : OS) :
  os_fspath origin = Returns p ->
  infile_setter fuel self0 origin os0 = (Returns tt, self, os1) ->
  __table self <> None
  /\ forall fuel' infile' os,
       is_None infile' = false ->
       exists e,
         infile_setter fuel' self infile' os = (Raises e, self, os)
         /\ AlreadyLoadedError e.
Proof.
  intros Hp H.
  destruct (infile_setter_from_path _ _ _ _ _ _ _ Hp H) as [f [t [Hf Ht]]].
  split; [congruence|].
  intros fuel' infile' os Hn. exists (InfileAlreadySet f).
  split; [now apply infile_setter_already_set | now exists f].
Qed.

(** *** The invariant *)

Lemma invariant_blank : invariant blank.
Proof. split; intros H; now elim H. Qed.

Lemma keeps_invariant (self self' : ExtractTable) :
  keeps self self' -> invariant self -> invariant self'.
Proof.
  intros [Hc [Hv Ht]] [I1 I2]. unfold invariant. rewrite Hc, Hv. auto.
Qed.

Lemma keeps_refl (self : ExtractTable) : keeps self self.
Proof. repeat split; auto. Qed.

Lemma infile_setter_keeps (fuel : nat) (self : ExtractTable) (o : pyobj) (os : OS) :
  keeps self (snd (fst (infile_setter fuel self o os))).
Proof.
  unfold infile_setter.
  destruct (is_None o); simpl; [apply keeps_refl|].
  destruct (__infile self); simpl; [apply keeps_refl|].
  destruct (__read_file fuel o os) as [[[f t]|e|] os1]; simpl.
  - repeat split; simpl; auto. discriminate.
  - destruct (GeoDataFrame o); simpl; repeat split; simpl; auto. discriminate.
  - apply keeps_refl.
Qed.

Lemma outfile_setter_keeps (self : ExtractTable) (o : pyobj) :
  keeps self (snd (outfile_setter self o)).
Proof.
  unfold outfile_setter. destruct (pathlib_Path o); simpl; repeat split; auto.
Qed.

Lemma column_setter_invariant (self : ExtractTable) (c : option string) :
  invariant self -> invariant (snd (column_setter self c)).
Proof.
  intros Hinv. unfold column_setter. destruct c as [c|]; [|assumption].
  destruct (__table self) as [t|] eqn:Ht; simpl.
  - destruct (getitem t c); simpl; try assumption.
    split; simpl; intros H; [now elim H | rewrite Ht; discriminate].
  - assumption.
Qed.

Lemma value_setter_invariant (self : ExtractTable) (v : option pyvalue) :
  invariant self -> invariant (snd (value_setter self v)).
Proof.
  intros Hinv. unfold value_setter. destruct v as [v|]; [|assumption].
  destruct (__table self) as [t|] eqn:Ht; [|assumption].
  destruct (column self) as [c|] eqn:Hc; [|assumption].
  destruct (filter_rows (Some t) (Some c) v) as [sel|e|]; try assumption.
  destruct (empty sel); simpl.
  - destruct Hinv as [I1 I2]. split; simpl; assumption.
  - split; simpl; intros _.
    + unfold column in Hc. rewrite Hc. discriminate.
    + rewrite Ht. discriminate.
Qed.

Lemma init_invariant fuel infile' outfile' column' value' os self os' :
  __init__ fuel infile' outfile' column' value' os = (Returns self, os') ->
  invariant self.
Proof.
  unfold __init__, __sanitize_init.
  pose proof (infile_setter_keeps fuel blank infile' os) as K1.
  destruct (infile_setter fuel blank infile' os) as [[r1 self1] os1].
  simpl in K1. destruct r1; try discriminate.
  pose proof (outfile_setter_keeps self1 outfile') as K2.
  destruct (outfile_setter self1 outfile') as [r2 self2].
  simpl in K2. destruct r2; try discriminate.
  assert (I2 : invariant self2).
  { apply (keeps_invariant self1); [assumption|].
    apply (keeps_invariant blank); [assumption | apply invariant_blank]. }
  pose proof (column_setter_invariant self2 column' I2) as I3.
  destruct (column_setter self2 column') as [r3 self3].
  simpl in I3. destruct r3; try discriminate.
  pose proof (value_setter_invariant self3 value' I3) as I4.
  destruct (value_setter self3 value') as [r4 self4].
  simpl in I4. destruct r4; try discriminate.
  intros H; injection H as <- _. assumption.
Qed.

Lemma run_invariant (fuel : nat) (c : call) (self : ExtractTable) (os : OS) :
  invariant self -> invariant (after fuel c self os).
Proof.
  intros Hinv. unfold after. destruct c; simpl; try assumption.
  - apply (keeps_invariant self); [apply infile_setter_keeps | assumption].
  - apply (keeps_invariant self); [apply outfile_setter_keeps | assumption].
  - now apply column_setter_invariant.
  - now apply value_setter_invariant.
Qed.

(** C8.  If the value is set then the column is set, and if the column is
    set then a table is loaded: every instance a constructor call hands
    out satisfies this, every call (the four setters, [extract],
    [extract_to_file], [list_columns], [list_values]) preserves it
    whatever it returns or raises, and so it holds in every reachable
    state. *)
Theorem invariant_reachable :
  (forall fuel infile' outfile' column' value' os self os',
      __init__ fuel infile' outfile' column' value' os = (Returns self, os') ->
      invariant self)
  /\ (forall fuel c self os,
        invariant self -> invariant (after fuel c self os))
  /\ (forall self, reachable self -> invariant self).
Proof.
  split; [|split].
  - intros. eapply init_invariant; eassumption.
  - intros. now apply run_invariant.
  - intros self H. induction H.
    + eapply init_invariant; eassumption.
    + now apply run_invariant.
Qed.

(** *** The operating system *)

Lemma path_eqb_refl (p : Path) : path_eqb p p = true.
Proof.
  induction p as [|a p IH]; simpl; [reflexivity|].
  now rewrite String.eqb_refl, IH.
Qed.

Lemma mem_path_app (p : Path) (l l' : list Path) :
  mem_path p (l ++ l') = mem_path p l || mem_path p l'.
Proof. unfold mem_path. apply existsb_app. Qed.

Lemma mem_path_In (p : Path) (l : list Path) : In p l -> mem_path p l = true.
Proof.
  intros H. unfold mem_path. apply existsb_exists. exists p.
  split; [assumption | apply path_eqb_refl].
Qed.

Lemma prefixes_self (p : Path) : p <> [] -> In p (prefixes p).
Proof.
  induction p as [|a p IH]; intros H; [now elim H|].
  simpl. destruct p as [|b p'].
  - now left.
  - right. apply in_map. apply IH. discriminate.
Qed.

Lemma isdir_add_dirs (os : OS) (ps : list Path) (p : Path) :
  os_path_isdir os p = true -> os_path_isdir (add_dirs os ps) p = true.
Proof.
  unfold os_path_isdir, add_dirs; simpl. rewrite mem_path_app.
  intros H. apply orb_true_iff in H. destruct H as [-> | ->]; [reflexivity|].
  simpl. now rewrite orb_true_r.
Qed.

Lemma isdir_after_makedirs (os : OS) (p : Path) :
  os_path_isdir (add_dirs os (prefixes p)) p = true.
Proof.
  destruct (os_path_isdir os p) eqn:E.
  - now apply isdir_add_dirs.
  - assert (Hne : p <> []) by (intros ->; discriminate).
    unfold os_path_isdir, add_dirs; simpl. rewrite mem_path_app.
    apply orb_true_iff. right. apply orb_true_iff. right.
    apply mem_path_In. apply filter_In.
    split; [now apply prefixes_self | now rewrite E].
Qed.

Lemma makedirs_outcome (p : Path) (os : OS) :
  (exists e, os_makedirs p os = (Raises e, os))
  \/ (os_makedirs p os = (Returns tt, add_dirs os (prefixes p))
      /\ os_path_isdir os p = false).
Proof.
  unfold os_makedirs.
  destruct (os_path_isdir os p); simpl; [left; eauto|].
  destruct (lookup p (os_files os)); simpl; [left; eauto|].
  destruct (os_refused os p); [left; eauto | right; auto].
Qed.

Lemma makedirs_existing (p : Path) (os : OS) :
  os_path_isdir os p = true ->
  os_makedirs p os = (Raises (Lib FileExistsError (str_of_path p)), os).
Proof. intros H. unfold os_makedirs. now rewrite H. Qed.

Lemma write_file_raises (p : Path) (c : content) (os os' : OS) (e : exn) :
  write_file p c os = (Raises e, os') -> os' = os.
Proof.
  unfold write_file.
  destruct (negb (os_path_isdir os (parent p))); [congruence|].
  destruct (os_refused os p || os_path_isdir os p); congruence.
Qed.

Lemma write_file_never_diverges (p : Path) (c : content) (os : OS) :
  fst (write_file p c os) <> OutOfFuel.
Proof.
  unfold write_file.
  destruct (negb (os_path_isdir os (parent p))); [discriminate|].
  destruct (os_refused os p || os_path_isdir os p); discriminate.
Qed.


(** *** [extract_to_file] *)

(** Every branch of the dispatch writes one file at the place the file
    name denotes. *)
Lemma inferred_file_writes (self : ExtractTable) (df : DataFrame)
  (filename : pathlike) (ext : string) :
  exists w, __extract_to_inferred_file self df filename ext
            = write_file (place filename) (Output w df).
Proof.
  unfold __extract_to_inferred_file.
  repeat match goal with
         | |- context [if ?b then _ else _] => destruct b
         end; eexists; reflexivity.
Qed.

Lemma write_extracted_writes (self : ExtractTable) (gdf : DataFrame) (geo : bool)
  (filename : pathlike) (ext : string) (driver : option string) :
  __has_spatial_data gdf = Returns geo ->
  exists w df, write_extracted self gdf geo filename ext driver
               = write_file (place filename) (Output w df).
Proof.
  intros Hgeo. unfold write_extracted.
  destruct geo; simpl.
  - repeat match goal with
           | |- context [if ?b then _ else _] => destruct b
           end; try (eexists; eexists; reflexivity).
    destruct (inferred_file_writes self gdf filename ext) as [w ->]. eauto.
  - unfold __has_spatial_data, getitem in Hgeo. unfold drop.
    destruct (col_pos (columns gdf) "geometry"); [|discriminate].
    match goal with
    | |- context [lift (Returns ?d)] =>
        destruct (inferred_file_writes self d filename ext) as [w Hw];
        exists w, d
    end.
    rewrite <- Hw. reflexivity.
Qed.

Lemma write_extracted_raises self gdf geo filename ext driver os os' e :
  __has_spatial_data gdf = Returns geo ->
  write_extracted self gdf geo filename ext driver os = (Raises e, os') ->
  os' = os.
Proof.
  intros Hgeo.
  destruct (write_extracted_writes self gdf geo filename ext driver Hgeo)
    as [w [df ->]].
  apply write_file_raises.
Qed.

Lemma write_extracted_never_diverges self gdf geo filename ext driver os :
  __has_spatial_data gdf = Returns geo ->
  fst (write_extracted self gdf geo filename ext driver os) <> OutOfFuel.
Proof.
  intros Hgeo.
  destruct (write_extracted_writes self gdf geo filename ext driver Hgeo)
    as [w [df ->]].
  apply write_file_never_diverges.
Qed.

(** When the directory of the stored outfile is already there (or no
    outfile is stored), the handler fails before it calls the method
    again. *)
Lemma body_without_retry (retry retry' : M unit) self outfile' driver os :
  (forall dir, outfile_parent self = Returns dir -> os_path_isdir os dir = true) ->
  extract_to_file_body retry self outfile' driver os
  = extract_to_file_body retry' self outfile' driver os.
Proof.
  intros Hdir. unfold extract_to_file_body, bind, lift.
  destruct (extract self) as [gdf|e|]; try reflexivity.
  destruct (__has_spatial_data gdf) as [geo|e|] eqn:Hgeo; try reflexivity.
  destruct (match outfile' with
            | Some s => Some (AsStr s)
            | None => option_map AsPath (outfile self)
            end) as [filename|]; [|reflexivity].
  unfold try_.
  destruct (write_extracted self gdf geo filename
              (__get_extension (fspath filename)) driver os)
    as [[u|e|] os'] eqn:W; try reflexivity.
  apply (write_extracted_raises _ _ _ _ _ _ _ _ _ Hgeo) in W. subst os'.
  destruct (outfile_parent self) as [dir|e'|] eqn:Hp; try reflexivity.
  rewrite (makedirs_existing dir os (Hdir dir eq_refl)). reflexivity.
Qed.

Lemma set_index_opt_never_diverges (t : option DataFrame) (c : option string) :
  set_index_opt t c <> OutOfFuel.
Proof.
  unfold set_index_opt, set_index.
  destruct t as [df|]; [|discriminate]. destruct c as [c|]; [|discriminate].
  destruct (col_pos (columns df) c); discriminate.
Qed.

Lemma extract_never_diverges (self : ExtractTable) : extract self <> OutOfFuel.
Proof.
  unfold extract. destruct (__table self); [|discriminate].
  destruct (truthy (column self)); [|discriminate].
  unfold __reindex.
  destruct (value self).
  - pose proof (set_index_opt_never_diverges (__extracted self) (column self)).
    destruct (set_index_opt (__extracted self) (column self));
      simpl; congruence.
  - pose proof (set_index_opt_never_diverges (__table self) (column self)).
    destruct (set_index_opt (__table self) (column self));
      simpl; congruence.
Qed.

Lemma has_spatial_data_never_diverges (gdf : DataFrame) :
  __has_spatial_data gdf <> OutOfFuel.
Proof.
  unfold __has_spatial_data, getitem.
  destruct (col_pos (columns gdf) "geometry"); discriminate.
Qed.

Lemma drop_never_diverges (df : DataFrame) (c : string) : drop df c <> OutOfFuel.
Proof. unfold drop. destruct (col_pos (columns df) c); discriminate. Qed.

Lemma body_never_diverges (retry : M unit) self outfile' driver os :
  (forall os', fst (retry os') <> OutOfFuel) ->
  fst (extract_to_file_body retry self outfile' driver os) <> OutOfFuel.
Proof.
  intros Hretry. unfold extract_to_file_body, bind, lift.
  pose proof (extract_never_diverges self) as Hx.
  destruct (extract self) as [gdf|e|]; [|discriminate|congruence].
  pose proof (has_spatial_data_never_diverges gdf) as Hg.
  destruct (__has_spatial_data gdf) as [geo|e|] eqn:Hgeo;
    [|discriminate|congruence].
  destruct (match outfile' with
            | Some s => Some (AsStr s)
            | None => option_map AsPath (outfile self)
            end) as [filename|].
  - unfold try_.
    pose proof (write_extracted_never_diverges self gdf geo filename
                  (__get_extension (fspath filename)) driver os Hgeo) as Hw.
    destruct (write_extracted self gdf geo filename
                (__get_extension (fspath filename)) driver os)
      as [[u|e|] os'] eqn:W; simpl in Hw; [discriminate| |congruence].
    unfold outfile_parent. destruct (__outfile self) as [p|]; [|discriminate].
    destruct (makedirs_outcome (parent p) os') as [[e' ->] | [-> _]];
      [discriminate|].
    specialize (Hretry (add_dirs os' (prefixes (parent p)))).
    destruct (retry (add_dirs os' (prefixes (parent p)))) as [[u|e'|] os2];
      simpl in *; try discriminate. assumption.
  - destruct geo; [discriminate|].
    pose proof (drop_never_diverges gdf "geometry") as Hd.
    destruct (drop gdf "geometry"); [discriminate|discriminate|congruence].
Qed.

Lemma body_retry_ext (retry retry' : M unit) self outfile' driver os :
  (forall dir os1,
      outfile_parent self = Returns dir -> os_path_isdir os1 dir = true ->
      retry os1 = retry' os1) ->
  extract_to_file_body retry self outfile' driver os
  = extract_to_file_body retry' self outfile' driver os.
Proof.
  intros Hext. unfold extract_to_file_body, bind, lift.
  destruct (extract self) as [gdf|e|]; try reflexivity.
  destruct (__has_spatial_data gdf) as [geo|e|] eqn:Hgeo; try reflexivity.
  destruct (match outfile' with
            | Some s => Some (AsStr s)
            | None => option_map AsPath (outfile self)
            end) as [filename|]; [|reflexivity].
  unfold try_.
  destruct (write_extracted self gdf geo filename
              (__get_extension (fspath filename)) driver os)
    as [[u|e|] os'] eqn:W; try reflexivity.
  destruct (outfile_parent self) as [dir|e'|] eqn:Hp; try reflexivity.
  destruct (makedirs_outcome dir os') as [[e' ->] | [-> _]]; [reflexivity|].
  now rewrite (Hext dir _ eq_refl (isdir_after_makedirs os' dir)).
Qed.

Lemma retry_on_existing_directory (fuel fuel' : nat) self outfile' driver dir os :
  outfile_parent self = Returns dir -> os_path_isdir os dir = true ->
  extract_to_file fuel self outfile' driver os
  = extract_to_file fuel' self outfile' driver os.
Proof.
  intros Hp Hd.
  assert (Hdir : forall d, outfile_parent self = Returns d ->
                           os_path_isdir os d = true)
    by (intros d Hd'; congruence).
  destruct fuel, fuel'; simpl; now apply body_without_retry.
Qed.

(** One unit of fuel is enough: the method calls itself at most once, and
    then returns or raises. *)
Lemma extract_to_file_fuel (fuel : nat) self outfile' driver os :
  extract_to_file (S fuel) self outfile' driver os
  = extract_to_file 1 self outfile' driver os
  /\ fst (extract_to_file (S fuel) self outfile' driver os) <> OutOfFuel.
Proof.
  assert (E : forall n, extract_to_file (S n) self outfile' driver os
                        = extract_to_file_body
                            (extract_to_file_body (ret tt) self outfile' driver)
                            self outfile' driver os).
  { intros n. simpl. apply body_retry_ext. intros dir os1 Hp Hd.
    rewrite (retry_on_existing_directory n 0 _ _ _ dir os1 Hp Hd). simpl.
    apply body_without_retry. intros d Hd'. congruence. }
  split.
  - now rewrite (E fuel), (E 0).
  - rewrite (E fuel). apply body_never_diverges. intros os'.
    apply body_never_diverges. discriminate.
Qed.


(** Writing to a destination given in the call when no outfile is stored:
    a failed write raises "Extraction failed" at once; no directory is
    created and the write is not made again. *)
Lemma extract_to_file_override_no_retry (fuel : nat) self s driver gdf geo os e os' :
  __outfile self = None ->
  extract self = Returns gdf ->
  __has_spatial_data gdf = Returns geo ->
  write_extracted self gdf geo (AsStr s) (__get_extension s) driver os
  = (Raises e, os') ->
  extract_to_file fuel self (Some s) driver os = (Raises (ExtractionFailed e), os)
  /\ os' = os.
Proof.
  intros Ho Hx Hgeo W.
  pose proof (write_extracted_raises _ _ _ _ _ _ _ _ _ Hgeo W) as ->.
  split; [|reflexivity].
  destruct fuel; simpl;
    unfold extract_to_file_body, bind, lift, try_, outfile_parent;
    rewrite Hx, Hgeo; simpl; rewrite W, Ho; reflexivity.
Qed.

(** *** [__unzip] *)

(** What [__unzip] does, by the outcome of the extraction: an exception of
    [extractall] passes through; after an extraction that returned, the
    result is the listing of the target when it is a directory, and the
    [StopIteration] of [next] when it is not. *)
Lemma unzip_cases (filename : string) (os : OS) :
  let cwd := fst (splitext filename) in
  match extractall filename cwd os with
  | (Returns _, os') =>
      if os_path_isdir os' (path_parts cwd)
      then exists files,
             next_os_walk cwd os' = (Returns files, os')
             /\ __unzip filename os = (Returns (map (os_path_join cwd) files), os')
      else __unzip filename os = (Raises (Lib StopIteration cwd), os')
  | (Raises e, os') => __unzip filename os = (Raises e, os')
  | (OutOfFuel, os') => __unzip filename os = (OutOfFuel, os')
  end.
Proof.
  intros cwd. unfold __unzip, bind. fold cwd.
  destruct (extractall filename cwd os) as [[u|e|] os']; try reflexivity.
  simpl. unfold next_os_walk.
  destruct (os_path_isdir os' (path_parts cwd)); [|reflexivity].
  eexists. split; reflexivity.
Qed.

Lemma write_file_raises_lib (p : Path) (c : content) (os : OS) (e : exn) :
  fst (write_file p c os) = Raises e -> exists cls what, e = Lib cls what.
Proof.
  unfold write_file.
  destruct (negb (os_path_isdir os (parent p))); simpl.
  - intros H; injection H as <-. eauto.
  - destruct (os_refused os p || os_path_isdir os p); simpl;
      [intros H; injection H as <-; eauto | discriminate].
Qed.

Lemma extract_members_raises_lib (cwd : string) (ms : list (string * content)) :
  forall os e,
    fst (extract_members cwd ms os) = Raises e -> exists cls what, e = Lib cls what.
Proof.
  induction ms as [|m ms IH]; intros os e; simpl; [discriminate|].
  unfold bind, extract_member.
  destruct (existsb (os_refused os) (prefixes (path_parts (os_path_join cwd (fst m))))).
  - simpl. intros H; injection H as <-. eauto.
  - pose proof (write_file_raises_lib
                  (path_parts (os_path_join cwd (fst m))) (snd m)
                  (add_dirs os (prefixes (parent (path_parts (os_path_join cwd (fst m))))))) as Hw.
    destruct (write_file (path_parts (os_path_join cwd (fst m))) (snd m)
                (add_dirs os (prefixes (parent (path_parts (os_path_join cwd (fst m)))))))
      as [[u|e'|] os']; simpl in *.
    + apply IH.
    + intros H; injection H as <-. now apply Hw.
    + discriminate.
Qed.

Lemma extractall_raises_lib (filename cwd : string) (os : OS) (e : exn) :
  fst (extractall filename cwd os) = Raises e -> exists cls what, e = Lib cls what.
Proof.
  unfold extractall.
  destruct (lookup (path_parts filename) (os_files os)) as [[parse [ms|]|w df]|]; simpl;
    try (intros H; injection H as <-; eauto).
  apply extract_members_raises_lib.
Qed.

(** The [raise IOError("Directory ... not found.")] of [__unzip] is never
    reached: [os.path.isdir] hands back a [bool], and a [bool] is not
    [None]. *)
Lemma unzip_never_directory_not_found (filename : string) (os : OS) (cwd : string) :
  fst (__unzip filename os) <> Raises (DirectoryNotFound cwd).
Proof.
  pose proof (unzip_cases filename os) as H. simpl in H.
  pose proof (extractall_raises_lib filename (fst (splitext filename)) os) as HL.
  destruct (extractall filename (fst (splitext filename)) os) as [[u|e|] os'];
    simpl in HL.
  - destruct (os_path_isdir os' (path_parts (fst (splitext filename)))).
    + destruct H as [files [_ ->]]. discriminate.
    + rewrite H. discriminate.
  - rewrite H. simpl. destruct (HL e eq_refl) as [cls [what ->]]. discriminate.
  - rewrite H. discriminate.
Qed.

Lemma unzip_extraction_fails (filename : string) (os os' : OS) (e : exn) :
  extractall filename (fst (splitext filename)) os = (Raises e, os') ->
  __unzip filename os = (Raises e, os').
Proof.
  intros H. pose proof (unzip_cases filename os) as C. simpl in C.
  now rewrite H in C.
Qed.

(** *** Reading *)

(** On an archive, [__read_file] is [__read_zip]. *)
Lemma read_file_zip (fuel : nat) (f : string) :
  __get_extension f = ".zip" ->
  __read_file (S fuel) (PyStr f) = __read_zip fuel f.
Proof.
  intros H. simpl. now rewrite H.
Qed.

(** *** The filter of the value setter and the predicate of the
    specification *)

Lemma filter_rows_scalar (t : DataFrame) (c v : string) (s : Series) :
  getitem t c = Returns s ->
  filter_rows (Some t) (Some c) (VStr v)
  = Returns (getitem_mask t (map (spec_passes (VStr v)) (values s))).
Proof.
  intros Hs. unfold filter_rows. now rewrite Hs.
Qed.

(** A list is tested by membership when its length is not the number of
    rows; a list as long as the table is compared position by position
    by [==] and never reaches [isin]. *)
Lemma filter_rows_list (t : DataFrame) (c : string) (l : list string) (s : Series) :
  getitem t c = Returns s ->
  length l <> nrows t ->
  filter_rows (Some t) (Some c) (VList l)
  = Returns (getitem_mask t (map (spec_passes (VList l)) (values s))).
Proof.
  intros Hs Hl. unfold filter_rows. rewrite Hs. simpl.
  rewrite (getitem_length t c s Hs).
  destruct (Nat.eqb_spec (length l) (nrows t)); [contradiction | reflexivity].
Qed.

Lemma filter_rows_list_same_length (t : DataFrame) (c : string) (l : list string)
  (s : Series) :
  getitem t c = Returns s ->
  length l = nrows t ->
  filter_rows (Some t) (Some c) (VList l)
  = Returns (getitem_mask t (zip_eq (values s) l)).
Proof.
  intros Hs Hl. unfold filter_rows. rewrite Hs. simpl.
  rewrite (getitem_length t c s Hs), Hl, Nat.eqb_refl. reflexivity.
Qed.

(** The value setter on a filter that selects some row: the value and the
    selection are stored. *)
Lemma value_setter_match (self : ExtractTable) (c : string) (v : pyvalue)
  (sel : DataFrame) :
  column self = Some c ->
  filter_rows (__table self) (column self) v = Returns sel ->
  empty sel = false ->
  value_setter self (Some v)
  = (Returns tt, set__value (set__extracted self (Some sel)) (Some v)).
Proof.
  intros Hc Hf He. unfold value_setter.
  destruct (__table self) as [t|] eqn:Ht.
  - rewrite Hc. rewrite Hc in Hf. rewrite Hf, He. reflexivity.
  - rewrite Hc in Hf. discriminate.
Qed.


(** ** Further properties *)

(** *** [__geometrize_gdf] *)

Lemma col_pos_app_last (cols : list string) (c : string) :
  col_pos (cols ++ [c]) c <> None.
Proof.
  induction cols as [|c' cols IH]; simpl.
  - rewrite String.eqb_refl. discriminate.
  - destruct (String.eqb c' c); [discriminate|].
    destruct (col_pos (cols ++ [c]) c); [discriminate | contradiction].
Qed.

Lemma with_geometry_has_geometry (df : DataFrame) (vals : list cell) :
  has_column (with_geometry df vals) "geometry" = true.
Proof.
  unfold has_column, with_geometry; simpl.
  pose proof (col_pos_app_last (columns df) "geometry") as H.
  destruct (col_pos (columns df ++ ["geometry"]) "geometry");
    [reflexivity | contradiction].
Qed.

Lemma geometrize_has_geometry (df : DataFrame) :
  has_column (__geometrize_gdf df) "geometry" = true.
Proof.
  assert (Hexc : has_column (if negb (has_column df "geometry")
                             then with_geometry df [] else df) "geometry" = true).
  { destruct (has_column df "geometry") eqn:Hg; simpl;
      [assumption | apply with_geometry_has_geometry]. }
  unfold __geometrize_gdf.
  destruct (getitem df "geometry") as [s|e|]; simpl; try exact Hexc.
  destruct (map_cells wkt_loads (values s)) as [g|e|]; simpl; try exact Hexc.
  destruct (drop df "geometry") as [d|e|]; simpl; try exact Hexc.
  apply with_geometry_has_geometry.
Qed.

Lemma filter_remove_nth (cols : list string) (c : string) :
  forall i, col_pos cols c = Some i ->
    filter (fun x => negb (String.eqb x c)) (remove_nth i cols)
    = filter (fun x => negb (String.eqb x c)) cols.
Proof.
  induction cols as [|c' cols IH]; intros i; simpl; [discriminate|].
  destruct (String.eqb c' c) eqn:E.
  - intros H; injection H as <-. reflexivity.
  - destruct (col_pos cols c) as [j|]; simpl; [|discriminate].
    intros H; injection H as <-. simpl. rewrite E. simpl.
    now rewrite (IH j eq_refl).
Qed.

Lemma drop_columns (df d : DataFrame) (c : string) :
  drop df c = Returns d ->
  exists i, col_pos (columns df) c = Some i /\ columns d = remove_nth i (columns df).
Proof.
  unfold drop. destruct (col_pos (columns df) c) as [i|]; [|discriminate].
  intros H; injection H as <-. exists i. split; reflexivity.
Qed.

Lemma with_geometry_other_columns (df : DataFrame) (vals : list cell) :
  filter (fun x => negb (String.eqb x "geometry")) (columns (with_geometry df vals))
  = filter (fun x => negb (String.eqb x "geometry")) (columns df).
Proof.
  unfold with_geometry; simpl. rewrite filter_app. simpl. apply app_nil_r.
Qed.

Lemma geometrize_other_columns (df : DataFrame) :
  filter (fun x => negb (String.eqb x "geometry")) (columns (__geometrize_gdf df))
  = filter (fun x => negb (String.eqb x "geometry")) (columns df).
Proof.
  assert (Hexc : filter (fun x => negb (String.eqb x "geometry"))
                   (columns (if negb (has_column df "geometry")
                             then with_geometry df [] else df))
                 = filter (fun x => negb (String.eqb x "geometry")) (columns df)).
  { destruct (has_column df "geometry"); cbn [negb];
      [reflexivity | apply with_geometry_other_columns]. }
  unfold __geometrize_gdf.
  destruct (getitem df "geometry") as [s|e|]; cbn [obind]; try exact Hexc.
  destruct (map_cells wkt_loads (values s)) as [g|e|]; cbn [obind]; try exact Hexc.
  destruct (drop df "geometry") as [d|e|] eqn:Hd; cbn [obind]; try exact Hexc.
  rewrite with_geometry_other_columns.
  destruct (drop_columns df d "geometry" Hd) as [i [Hi ->]].
  now apply filter_remove_nth.
Qed.

(** X1.  Whatever frame it is given, [__geometrize_gdf] hands back a frame
    with the same index, index name and number of rows, with a [geometry]
    column, and with the other column labels as they were and in the same
    order. *)
Theorem geometrize_keeps_frame (df : DataFrame) :
  index (__geometrize_gdf df) = index df
  /\ index_name (__geometrize_gdf df) = index_name df
  /\ nrows (__geometrize_gdf df) = nrows df
  /\ has_column (__geometrize_gdf df) "geometry" = true
  /\ filter (fun x => negb (String.eqb x "geometry")) (columns (__geometrize_gdf df))
     = filter (fun x => negb (String.eqb x "geometry")) (columns df).
Proof.
  destruct (geometrize_index df) as [Hi Hn].
  repeat split; auto using geometrize_nrows, geometrize_has_geometry,
                           geometrize_other_columns.
Qed.

Lemma map_cells_rejects (f : cell -> option cell) (l : list cell) :
  (exists c, In c l /\ f c = None) -> exists e, map_cells f l = Raises e.
Proof.
  induction l as [|a l IH]; intros [c [Hin Hc]]; [destruct Hin|].
  simpl. destruct (f a) eqn:Ha.
  - destruct Hin as [-> | Hin]; [congruence|].
    destruct (IH (ex_intro _ c (conj Hin Hc))) as [e ->]. simpl. eauto.
  - eauto.
Qed.

(** X2.  A frame that has a [geometry] column with an entry the parser
    refuses (a shape already parsed, a null, a text that is no WKT) comes
    back from [__geometrize_gdf] exactly as it went in. *)
Theorem geometrize_unparsed_unchanged (df : DataFrame) (s : Series) (c : cell) :
  getitem df "geometry" = Returns s ->
  In c (values s) -> wkt_loads c = None ->
  __geometrize_gdf df = df.
Proof.
  intros Hs Hin Hc. unfold __geometrize_gdf. rewrite Hs. simpl.
  destruct (map_cells_rejects wkt_loads (values s) (ex_intro _ c (conj Hin Hc)))
    as [e ->].
  simpl. unfold has_column. unfold getitem in Hs.
  destruct (col_pos (columns df) "geometry"); [reflexivity | discriminate].
Qed.


(** *** Every loaded table has a [geometry] column *)

Lemma outfile_setter_frame (self : ExtractTable) (o : pyobj) :
  __table (snd (outfile_setter self o)) = __table self
  /\ __infile (snd (outfile_setter self o)) = __infile self
  /\ column (snd (outfile_setter self o)) = column self
  /\ value (snd (outfile_setter self o)) = value self
  /\ __extracted (snd (outfile_setter self o)) = __extracted self.
Proof.
  unfold outfile_setter. destruct (pathlib_Path o); simpl; auto.
Qed.

Lemma column_setter_frame (self : ExtractTable) (c : option string) :
  __table (snd (column_setter self c)) = __table self
  /\ __infile (snd (column_setter self c)) = __infile self
  /\ outfile (snd (column_setter self c)) = outfile self
  /\ __extracted (snd (column_setter self c)) = __extracted self.
Proof.
  unfold column_setter. destruct c as [c|]; [|auto].
  destruct (getitem_opt (__table self) c); simpl; auto.
Qed.

Lemma value_setter_frame (self : ExtractTable) (v : option pyvalue) :
  __table (snd (value_setter self v)) = __table self
  /\ __infile (snd (value_setter self v)) = __infile self
  /\ outfile (snd (value_setter self v)) = outfile self
  /\ column (snd (value_setter self v)) = column self
  /\ __coldata (snd (value_setter self v)) = __coldata self.
Proof.
  unfold value_setter. destruct v as [v|]; [|auto].
  destruct (__table self) as [t|] eqn:Ht; [|simpl; auto].
  destruct (column self) as [c|] eqn:Hc; [|simpl; auto].
  destruct (filter_rows (Some t) (Some c) v) as [sel|e|]; simpl; auto.
  destruct (empty sel); simpl; auto.
Qed.

Lemma read_first_returns (P : string * DataFrame -> Prop)
  (read : string -> M (string * DataFrame)) :
  (forall file os r os', read file os = (Returns r, os') -> P r) ->
  forall files os r os', read_first read files os = (Returns r, os') -> P r.
Proof.
  intros Hread files. induction files as [|file files IH]; intros os r os'; simpl.
  - discriminate.
  - unfold try_. destruct (read file os) as [[r1|e|] os1] eqn:E.
    + intros H; injection H as <- <-. eapply Hread; eassumption.
    + apply IH.
    + discriminate.
Qed.

Lemma read_file_has_geometry (fuel : nat) :
  forall origin os name' gdf os',
    __read_file fuel origin os = (Returns (name', gdf), os') ->
    has_column gdf "geometry" = true.
Proof.
  induction fuel as [|fuel IH]; intros origin os name' gdf os';
    simpl; destruct (os_fspath origin) as [f|e|]; try discriminate;
    (destruct (negb (String.eqb (__get_extension f) ".zip"));
     [ unfold try_, bind, ret;
       destruct (__read_inferred f (__get_extension f) os) as [[df|e|] os1];
       [ intros H; injection H as _ <- _; apply geometrize_has_geometry
       | destruct (read_with gpd_read_file f os1) as [[df|e'|] os2];
         [ intros H; injection H as _ <- _; apply geometrize_has_geometry
         | discriminate | discriminate ]
       | discriminate ]
     | ]).
  - discriminate.
  - unfold bind. destruct (__unzip f os) as [[files|e|] os1]; try discriminate.
    apply (read_first_returns (fun r => has_column (snd r) "geometry" = true)
             (fun file => __read_file fuel (PyStr file))).
    intros file os2 [n g] os3 H. simpl. eapply IH; eassumption.
Qed.

Lemma infile_setter_has_geometry (fuel : nat) (self : ExtractTable)
  (o : pyobj) (os : OS) :
  has_geometry self -> has_geometry (snd (fst (infile_setter fuel self o os))).
Proof.
  intros Hg. unfold infile_setter.
  destruct (is_None o); simpl; [assumption|].
  destruct (__infile self); simpl; [assumption|].
  destruct (__read_file fuel o os) as [[[f t]|e|] os1] eqn:E; simpl.
  - intros t' H; injection H as <-. eapply read_file_has_geometry; eassumption.
  - destruct (GeoDataFrame o); simpl; try assumption.
    intros t' H; injection H as <-. apply geometrize_has_geometry.
  - assumption.
Qed.

Lemma has_geometry_table (self self' : ExtractTable) :
  __table self' = __table self -> has_geometry self -> has_geometry self'.
Proof. intros E H t Ht. apply H. congruence. Qed.

Lemma after_has_geometry (fuel : nat) (c : call) (self : ExtractTable) (os : OS) :
  has_geometry self -> has_geometry (after fuel c self os).
Proof.
  intros Hg. unfold after. destruct c; simpl; try assumption.
  - now apply infile_setter_has_geometry.
  - apply (has_geometry_table self); [apply outfile_setter_frame | assumption].
  - apply (has_geometry_table self); [apply column_setter_frame | assumption].
  - apply (has_geometry_table self); [apply value_setter_frame | assumption].
Qed.

Lemma init_has_geometry fuel infile' outfile' column' value' os self os' :
  __init__ fuel infile' outfile' column' value' os = (Returns self, os') ->
  has_geometry self.
Proof.
  unfold __init__, __sanitize_init.
  assert (H0 : has_geometry blank) by (intros t H; discriminate H).
  pose proof (infile_setter_has_geometry fuel blank infile' os H0) as H1.
  destruct (infile_setter fuel blank infile' os) as [[r1 self1] os1].
  simpl in H1. destruct r1; try discriminate.
  pose proof (outfile_setter_frame self1 outfile') as [T2 _].
  destruct (outfile_setter self1 outfile') as [r2 self2].
  simpl in T2. destruct r2; try discriminate.
  pose proof (column_setter_frame self2 column') as [T3 _].
  destruct (column_setter self2 column') as [r3 self3].
  simpl in T3. destruct r3; try discriminate.
  pose proof (value_setter_frame self3 value') as [T4 _].
  destruct (value_setter self3 value') as [r4 self4].
  simpl in T4. destruct r4; try discriminate.
  intros H; injection H as <- _.
  apply (has_geometry_table self1); [congruence | assumption].
Qed.

Lemma reachable_has_geometry (self : ExtractTable) :
  reachable self -> has_geometry self.
Proof.
  intros H. induction H.
  - eapply init_has_geometry; eassumption.
  - now apply after_has_geometry.
Qed.

(** X3.  In every reachable state the loaded table has a [geometry]
    column, so that [__has_spatial_data] and [list_columns], which
    subscript the table with ['geometry'], return. *)
Theorem loaded_table_has_geometry (self : ExtractTable) (t : DataFrame) :
  reachable self -> __table self = Some t ->
  has_column t "geometry" = true
  /\ (exists b, __has_spatial_data t = Returns b)
  /\ (exists l, list_columns self = Returns l).
Proof.
  intros Hr Ht. pose proof (reachable_has_geometry self Hr t Ht) as Hg.
  destruct (has_column_getitem t "geometry" Hg) as [s Hs].
  split; [assumption|].
  unfold list_columns, __has_spatial_data. rewrite Ht, Hs. simpl.
  split; [eauto|]. destruct (negb (forallb isna (values s))); eauto.
Qed.


(** *** Instances loaded from a path *)

Lemma filter_rows_columns (t sel : DataFrame) (c : string) (v : pyvalue) :
  filter_rows (Some t) (Some c) v = Returns sel ->
  columns sel = columns t /\ has_column t c = true.
Proof.
  unfold filter_rows, try_except, has_column, getitem.
  destruct (col_pos (columns t) c) as [i|]; [|discriminate].
  simpl. destruct (series_eq _ v) as [mask|e|]; simpl.
  - intros H; injection H as <-. auto.
  - destruct (isin _ v) as [mask|e'|]; simpl; try discriminate.
    intros H; injection H as <-. auto.
  - discriminate.
Qed.

Lemma infile_setter_frozen (fuel : nat) (self : ExtractTable) (o : pyobj)
  (os : OS) (f : string) :
  __infile self = Some f ->
  snd (fst (infile_setter fuel self o os)) = self.
Proof.
  intros Hf. unfold infile_setter. rewrite Hf.
  destruct (is_None o); reflexivity.
Qed.

Lemma after_frozen (fuel : nat) (c : call) (self : ExtractTable) (os : OS)
  (f : string) :
  __infile self = Some f ->
  __infile (after fuel c self os) = Some f
  /\ __table (after fuel c self os) = __table self.
Proof.
  intros Hf. unfold after. destruct c; simpl; auto.
  - rewrite (infile_setter_frozen fuel self infile' os f Hf). auto.
  - destruct (outfile_setter_frame self outfile') as [Ht [Hi _]].
    split; congruence.
  - destruct (column_setter_frame self column') as [Ht [Hi _]].
    split; congruence.
  - destruct (value_setter_frame self value') as [Ht [Hi _]].
    split; congruence.
Qed.

(** X4.  Once an infile is stored, no call changes the infile or the
    loaded table: in every state reached from such an instance they are
    what they were. *)
Theorem table_frozen_once_infile_set (self0 self : ExtractTable) (f : string) :
  __infile self0 = Some f -> reaches self0 self ->
  __infile self = Some f /\ __table self = __table self0.
Proof.
  intros Hf Hr. induction Hr as [|fuel c self os Hr [IHf IHt]].
  - auto.
  - destruct (after_frozen fuel c self os f IHf) as [Hf' Ht'].
    split; congruence.
Qed.

Lemma column_setter_path_loaded (self : ExtractTable) (c : option string) :
  path_loaded self -> path_loaded (snd (column_setter self c)).
Proof.
  intros [f [t [Hf [Ht [Hc Hv]]]]]. unfold column_setter.
  destruct c as [c|]; [|exists f, t; auto].
  unfold getitem_opt. rewrite Ht.
  destruct (getitem t c) as [s|e|] eqn:Hs; simpl;
    try solve [exists f, t; auto].
  exists f, t. simpl. repeat split; auto; try (intros H; now elim H).
  intros c' H; injection H as <-. unfold has_column. unfold getitem in Hs.
  destruct (col_pos (columns t) c); [reflexivity | discriminate].
Qed.

Lemma value_setter_path_loaded (self : ExtractTable) (v : option pyvalue) :
  path_loaded self -> path_loaded (snd (value_setter self v)).
Proof.
  intros [f [t [Hf [Ht [Hc Hv]]]]].
  destruct (value_setter_frame self v) as [Et [Ei [_ [Ecol _]]]].
  exists f, t. rewrite Ei, Et, Ecol. repeat split; auto.
  unfold value_setter. destruct v as [v|]; [|exact Hv].
  rewrite Ht. destruct (column self) as [c|]; [|exact Hv].
  destruct (filter_rows (Some t) (Some c) v) as [sel|e|] eqn:Hsel;
    try exact Hv.
  destruct (filter_rows_columns t sel c v Hsel) as [Hcols _].
  destruct (empty sel); simpl; intros _; eauto.
Qed.

Lemma outfile_setter_path_loaded (self : ExtractTable) (o : pyobj) :
  path_loaded self -> path_loaded (snd (outfile_setter self o)).
Proof.
  intros [f [t [Hf [Ht [Hc Hv]]]]].
  destruct (outfile_setter_frame self o) as [Et [Ei [Ec [Ev Ex]]]].
  exists f, t. rewrite Ei, Et, Ec, Ev, Ex. auto.
Qed.

Lemma after_path_loaded (fuel : nat) (c : call) (self : ExtractTable) (os : OS) :
  path_loaded self -> path_loaded (after fuel c self os).
Proof.
  intros H. unfold after. destruct c; simpl; try assumption.
  - destruct H as [f [t [Hf H]]].
    rewrite (infile_setter_frozen fuel self infile' os f Hf).
    exists f, t. auto.
  - now apply outfile_setter_path_loaded.
  - now apply column_setter_path_loaded.
  - now apply value_setter_path_loaded.
Qed.

Lemma init_from_path_loaded fuel origin p outfile' column' value' os self os' :
  os_fspath origin = Returns p ->
  __init__ fuel origin outfile' column' value' os = (Returns self, os') ->
  path_loaded self.
Proof.
  intros Hp. unfold __init__, __sanitize_init.
  pose proof (infile_setter_keeps fuel blank origin os) as [Kc [Kv _]].
  destruct (infile_setter fuel blank origin os) as [[r1 self1] os1] eqn:E1.
  simpl in Kc, Kv. destruct r1 as [[]| |]; try discriminate.
  destruct (infile_setter_from_path _ _ _ _ _ _ _ Hp E1) as [f [t [Hf Ht]]].
  assert (P1 : path_loaded self1).
  { exists f, t. repeat split; auto.
    - intros c H. rewrite Kc in H. discriminate H.
    - intros H. rewrite Kv in H. now elim H. }
  pose proof (outfile_setter_path_loaded self1 outfile' P1) as P2.
  destruct (outfile_setter self1 outfile') as [r2 self2].
  simpl in P2. destruct r2; try discriminate.
  pose proof (column_setter_path_loaded self2 column' P2) as P3.
  destruct (column_setter self2 column') as [r3 self3].
  simpl in P3. destruct r3; try discriminate.
  pose proof (value_setter_path_loaded self3 value' P3) as P4.
  destruct (value_setter self3 value') as [r4 self4].
  simpl in P4. destruct r4; try discriminate.
  intros H; injection H as <- _. assumption.
Qed.

Lemma path_loaded_extract (self : ExtractTable) :
  path_loaded self -> exists r, extract self = Returns r.
Proof.
  intros [f [t [Hf [Ht [Hc Hv]]]]]. unfold extract. rewrite Ht.
  destruct (column self) as [c|] eqn:Ec; simpl; [|eauto].
  destruct (String.eqb c ""); simpl; [eauto|].
  unfold __reindex. rewrite Ec.
  pose proof (Hc c eq_refl) as Hcol.
  destruct (value self) as [v|] eqn:Ev.
  - destruct Hv as [sel [Hx Hcols]]; [discriminate|].
    rewrite Hx. simpl. unfold set_index. rewrite Hcols.
    unfold has_column in Hcol.
    destruct (col_pos (columns t) c); [simpl; eauto | discriminate].
  - rewrite Ht. simpl. unfold set_index. unfold has_column in Hcol.
    destruct (col_pos (columns t) c); [simpl; eauto | discriminate].
Qed.

(** X5.  On an instance that [read_file] handed out, and after any calls
    on it, [extract] returns a frame: the table is loaded, a column that
    is set is a column of it, and a cached selection has its columns. *)
Theorem extract_returns_after_read_file (fuel : nat) (filename : string)
  (column' : option string) (value' : option pyvalue) (os os' : OS)
  (self0 self : ExtractTable) :
  read_file fuel filename column' value' os = (Returns self0, os') ->
  reaches self0 self ->
  exists r, extract self = Returns r.
Proof.
  intros Hread Hr. apply path_loaded_extract.
  induction Hr.
  - unfold read_file in Hread.
    eapply (init_from_path_loaded fuel (PyStr filename) filename); [reflexivity|].
    eassumption.
  - now apply after_path_loaded.
Qed.


(** *** Construction *)

Lemma column_setter_returns (self self' : ExtractTable) (c : option string) :
  column_setter self c = (Returns tt, self') ->
  match c with
  | Some c => column self' = Some c /\ value self' = None /\ __table self' <> None
  | None => self' = self
  end.
Proof.
  unfold column_setter. destruct c as [c|].
  - destruct (__table self) as [t|] eqn:Ht; simpl; [|discriminate].
    destruct (getitem t c); try discriminate.
    intros H; injection H as <-. simpl. rewrite Ht.
    repeat split; discriminate.
  - intros H; now injection H as <-.
Qed.

Lemma value_setter_returns (self self' : ExtractTable) (v : option pyvalue) :
  value_setter self v = (Returns tt, self') ->
  match v with
  | Some v => value self' = Some v
  | None => self' = self
  end.
Proof.
  unfold value_setter. destruct v as [v|].
  - destruct (__table self); [|discriminate].
    destruct (column self); [|discriminate].
    destruct (filter_rows _ _ v) as [sel|e|]; try discriminate.
    destruct (empty sel); [discriminate|].
    intros H; now injection H as <-.
  - intros H; now injection H as <-.
Qed.

Lemma init_selectors fuel infile' outfile' column' value' os self os' :
  __init__ fuel infile' outfile' column' value' os = (Returns self, os') ->
  column self = column'
  /\ value self = value'
  /\ outfile self = match pathlib_Path outfile' with
                    | Returns p => Some p
                    | _ => None
                    end.
Proof.
  unfold __init__, __sanitize_init.
  pose proof (infile_setter_keeps fuel blank infile' os) as [Kc [Kv _]].
  destruct (infile_setter fuel blank infile' os) as [[r1 self1] os1].
  simpl in Kc, Kv. destruct r1 as [[]| |]; try discriminate.
  pose proof (outfile_setter_frame self1 outfile') as [_ [_ [Oc [Ov _]]]].
  assert (Oo : outfile (snd (outfile_setter self1 outfile'))
               = match pathlib_Path outfile' with
                 | Returns p => Some p
                 | _ => None
                 end)
    by (unfold outfile_setter; destruct (pathlib_Path outfile'); reflexivity).
  destruct (outfile_setter self1 outfile') as [r2 self2].
  simpl in Oc, Ov, Oo. destruct r2 as [[]| |]; try discriminate.
  pose proof (column_setter_frame self2 column') as [_ [_ [Co _]]].
  destruct (column_setter self2 column') as [r3 self3] eqn:E3.
  simpl in Co. destruct r3 as [[]| |]; try discriminate.
  pose proof (column_setter_returns self2 self3 column' E3) as Cr.
  pose proof (value_setter_frame self3 value') as [_ [_ [Vo [Vc _]]]].
  destruct (value_setter self3 value') as [r4 self4] eqn:E4.
  simpl in Vo, Vc. destruct r4 as [[]| |]; try discriminate.
  pose proof (value_setter_returns self3 self4 value' E4) as Vr.
  intros H; injection H as <- _.
  assert (Hcol : column self3 = column' /\ value self3 = None).
  { destruct column' as [c|].
    - destruct Cr as [Hc [Hv _]]. auto.
    - subst self3. split; congruence. }
  destruct Hcol as [Hc Hv].
  repeat split.
  - congruence.
  - destruct value' as [v|]; [assumption | subst self4; assumption].
  - congruence.
Qed.

(** X6.  An instance the constructor hands out stores the column and the
    value it was given and the outfile [pathlib.Path] makes of the
    argument ([None] when it makes none); when a column was given, a table
    is loaded. *)
Theorem init_stores_arguments fuel infile' outfile' column' value' os self os' :
  __init__ fuel infile' outfile' column' value' os = (Returns self, os') ->
  column self = column'
  /\ value self = value'
  /\ outfile self = match pathlib_Path outfile' with
                    | Returns p => Some p
                    | _ => None
                    end
  /\ (column' <> None -> __table self <> None).
Proof.
  intros H.
  destruct (init_selectors _ _ _ _ _ _ _ _ H) as [Hc [Hv Ho]].
  destruct (init_invariant _ _ _ _ _ _ _ _ H) as [_ I2].
  repeat split; try assumption.
  intros Hne. apply I2. now rewrite Hc.
Qed.

Lemma init_raises fuel infile' outfile' column' value' os e :
  fst (__init__ fuel infile' outfile' column' value' os) = Raises e ->
  exists cause, e = InitializationFailed cause.
Proof.
  unfold __init__, __sanitize_init.
  destruct (infile_setter fuel blank infile' os) as [[r1 self1] os1].
  destruct r1; simpl;
    [ | intros H; injection H as <-; eauto | discriminate].
  destruct (outfile_setter self1 outfile') as [r2 self2].
  destruct r2; simpl;
    [ | intros H; injection H as <-; eauto | discriminate].
  destruct (column_setter self2 column') as [r3 self3].
  destruct r3; simpl;
    [ | intros H; injection H as <-; eauto | discriminate].
  destruct (value_setter self3 value') as [r4 self4].
  destruct r4; simpl;
    [ discriminate | intros H; injection H as <-; eauto | discriminate].
Qed.

(** X7.  Whatever a setter raises during construction, the constructor
    raises an [AttributeError] carrying it, and no other exception: the
    [KeyError] of the column or value setter does not reach the caller as
    a [KeyError]. *)
Theorem init_raises_attribute_error fuel infile' outfile' column' value' os e :
  fst (__init__ fuel infile' outfile' column' value' os) = Raises e ->
  (exists cause, e = InitializationFailed cause)
  /\ class_of e = AttributeError
  /\ issubclass (class_of e) KeyError = false.
Proof.
  intros H. destruct (init_raises _ _ _ _ _ _ _ H) as [cause ->].
  split; [eauto|]. split; reflexivity.
Qed.

(** X8.  No instance is constructed with a value and no column, nor with a
    column and no infile: such a constructor call does not return. *)
Theorem init_needs_column_and_table fuel infile' outfile' column' value' os :
  (column' = None /\ value' <> None) \/ (infile' = PyNone /\ column' <> None) ->
  forall self, fst (__init__ fuel infile' outfile' column' value' os) <> Returns self.
Proof.
  intros Hargs self Hret.
  destruct (__init__ fuel infile' outfile' column' value' os) as [r os'] eqn:E.
  simpl in Hret. subst r.
  pose proof (init_invariant _ _ _ _ _ _ _ _ E) as [I1 I2].
  destruct Hargs as [[Hc Hv] | [Hi Hc]].
  - unfold __init__, __sanitize_init in E.
    pose proof (infile_setter_keeps fuel blank infile' os) as [Kc _].
    destruct (infile_setter fuel blank infile' os) as [[r1 self1] os1].
    simpl in Kc. destruct r1 as [[]| |]; try discriminate.
    pose proof (outfile_setter_frame self1 outfile') as [_ [_ [Oc _]]].
    destruct (outfile_setter self1 outfile') as [r2 self2].
    simpl in Oc. destruct r2 as [[]| |]; try discriminate.
    subst column'. simpl in E.
    destruct value' as [v|]; [|now elim Hv].
    unfold value_setter in E.
    destruct (__table self2); [|discriminate].
    assert (Hn : column self2 = None) by congruence.
    rewrite Hn in E. discriminate.
  - subst infile'. unfold __init__, __sanitize_init in E. simpl in E.
    destruct (outfile_setter blank outfile') as [r2 self2] eqn:E2.
    pose proof (outfile_setter_frame blank outfile') as [Ot _].
    rewrite E2 in Ot. simpl in Ot.
    destruct r2 as [[]| |]; try discriminate.
    destruct column' as [c|]; [|now elim Hc].
    unfold column_setter, getitem_opt in E. rewrite Ot in E. discriminate.
Qed.


(** *** The value setter and the rows [extract] hands back *)

Lemma select_map (A : Type) (p : A -> bool) (l : list A) :
  select l (map p l) = filter p l.
Proof.
  induction l as [|a l IH]; simpl; [reflexivity|].
  destruct (p a); now rewrite IH.
Qed.

Lemma filter_map_comm (A B : Type) (p : B -> bool) (g : A -> B) (l : list A) :
  filter p (map g l) = map g (filter (fun x => p (g x)) l).
Proof.
  induction l as [|a l IH]; simpl; [reflexivity|].
  destruct (p (g a)); simpl; now rewrite IH.
Qed.

Lemma existsb_filter (A : Type) (p : A -> bool) (l : list A) :
  existsb p l = negb (Nat.eqb (length (filter p l)) 0).
Proof.
  induction l as [|a l IH]; simpl; [reflexivity|].
  destruct (p a); simpl; [reflexivity | assumption].
Qed.


(** Outside the case of a list as long as the table, the two attempts of
    the setter select the rows that pass the predicate of the
    specification. *)
Lemma filter_rows_spec (t : DataFrame) (c : string) (v : pyvalue) (s : Series) :
  getitem t c = Returns s ->
  (forall l, v = VList l -> length l <> nrows t) ->
  filter_rows (Some t) (Some c) v
  = Returns (getitem_mask t (map (spec_passes v) (values s))).
Proof.
  intros Hs Hv. destruct v as [x|l].
  - now apply filter_rows_scalar.
  - apply filter_rows_list; [assumption | now apply Hv].
Qed.

Lemma getitem_values (t : DataFrame) (c : string) (s : Series) :
  getitem t c = Returns s ->
  exists i, col_pos (columns t) c = Some i
            /\ values s = map (fun r => nth i (cells r) CNull) (rows t).
Proof.
  unfold getitem. destruct (col_pos (columns t) c) as [i|]; [|discriminate].
  intros H; injection H as <-. exists i. split; reflexivity.
Qed.

Lemma col_pos_some_nonempty (cols : list string) (c : string) (i : nat) :
  col_pos cols c = Some i -> Nat.eqb (length cols) 0 = false.
Proof. destruct cols; [discriminate | reflexivity]. Qed.

(** A selection is empty exactly when no entry of the column passes. *)
Lemma selection_empty (t : DataFrame) (c : string) (v : pyvalue) (s : Series) :
  getitem t c = Returns s ->
  empty (getitem_mask t (map (spec_passes v) (values s)))
  = negb (existsb (spec_passes v) (values s)).
Proof.
  intros Hs. destruct (getitem_values t c s Hs) as [i [Hi Hvals]].
  unfold empty, getitem_mask; simpl.
  rewrite (col_pos_some_nonempty _ _ _ Hi), orb_false_r.
  rewrite Hvals, map_map, select_map.
  rewrite existsb_filter, filter_map_comm, length_map, negb_involutive.
  reflexivity.
Qed.

(** X9.  The value setter on a scalar, or on a list whose length is not
    the number of rows: it succeeds exactly when some entry of the column
    passes the filter (equal to the scalar, or a member of the list; one
    match is enough).  It then stores the value and caches the matching
    rows; otherwise it raises the [KeyError] "Column ... has no value ...".
    The table, the column, the infile and the outfile stay in both
    cases. *)
Theorem value_setter_matches (self : ExtractTable) (t : DataFrame) (c : string)
  (v : pyvalue) (s : Series) :
  __table self = Some t -> column self = Some c ->
  getitem t c = Returns s ->
  (forall l, v = VList l -> length l <> nrows t) ->
  let sel := getitem_mask t (map (spec_passes v) (values s)) in
  (existsb (spec_passes v) (values s) = true ->
   value_setter self (Some v)
   = (Returns tt, set__value (set__extracted self (Some sel)) (Some v)))
  /\ (existsb (spec_passes v) (values s) = false ->
      value_setter self (Some v)
      = (Raises (NoValue c v), set__extracted self (Some sel))).
Proof.
  intros Ht Hc Hs Hv sel.
  pose proof (filter_rows_spec t c v s Hs Hv) as Hf. fold sel in Hf.
  pose proof (selection_empty t c v s Hs) as He. fold sel in He.
  split; intros Hex; rewrite Hex in He; simpl in He.
  - apply (value_setter_match self c v sel);
      [assumption | now rewrite Ht, Hc | assumption].
  - apply (value_setter_no_match self c v sel);
      [assumption | now rewrite Ht, Hc | assumption].
Qed.


(** X11.  Whatever it is given and whether it returns or raises, the
    value setter leaves the table, the infile, the outfile, the column
    and the cached column data as they were, and it changes the stored
    value only when it returns on a value that is not [None]. *)
Theorem value_setter_changes (self : ExtractTable) (v : option pyvalue) :
  __table (snd (value_setter self v)) = __table self
  /\ __infile (snd (value_setter self v)) = __infile self
  /\ outfile (snd (value_setter self v)) = outfile self
  /\ column (snd (value_setter self v)) = column self
  /\ __coldata (snd (value_setter self v)) = __coldata self
  /\ value (snd (value_setter self v))
     = match fst (value_setter self v), v with
       | Returns _, Some x => Some x
       | _, _ => value self
       end.
Proof.
  destruct (value_setter_frame self v) as [H1 [H2 [H3 [H4 H5]]]].
  repeat split; auto.
  unfold value_setter. destruct v as [v|]; [|reflexivity].
  destruct (__table self); [|reflexivity].
  destruct (column self); [|reflexivity].
  destruct (filter_rows _ _ v) as [sel|e|]; try reflexivity.
  destruct (empty sel); reflexivity.
Qed.


(** X12.  Setting the column to a non-empty label of the loaded table,
    whatever value and selection were stored before: the value is
    cleared, the column data are the entries of the column, and [extract]
    returns a frame indexed by those entries, named after the column,
    with all the rows of the table. *)
Theorem column_then_extract (self : ExtractTable) (t : DataFrame) (c : string) :
  __table self = Some t -> has_column t c = true -> c <> "" ->
  exists s r,
    getitem t c = Returns s
    /\ __coldata (snd (column_setter self (Some c))) = Some s
    /\ value (snd (column_setter self (Some c))) = None
    /\ extract (snd (column_setter self (Some c))) = Returns r
    /\ index r = values s
    /\ index_name r = Some c
    /\ nrows r = nrows t.
Proof.
  intros Ht Hc Hne.
  destruct (extract_after_column self t c Ht Hc Hne)
    as [s [r [Hs [Hx [Hi [Hn Hr]]]]]].
  exists s, r.
  destruct (column_setter_found self t c Ht Hc) as [s' [Hs' Hset]].
  assert (s' = s) by congruence. subst s'.
  rewrite Hset in *. simpl. repeat split; assumption.
Qed.

(** *** [list_columns] and [list_values] *)

Lemma col_pos_In (cols : list string) (c : string) :
  forall i, col_pos cols c = Some i -> In c cols.
Proof.
  induction cols as [|c' cols IH]; intros i; simpl; [discriminate|].
  destruct (String.eqb_spec c' c); [auto|].
  destruct (col_pos cols c) as [j|]; [|discriminate].
  intros _. right. now apply (IH j).
Qed.

Lemma forallb_false_exists (A : Type) (f : A -> bool) (l : list A) :
  forallb f l = false -> exists x, In x l /\ f x = false.
Proof.
  induction l as [|a l IH]; simpl; [discriminate|].
  destruct (f a) eqn:E; simpl.
  - intros H. destruct (IH H) as [x [Hin Hx]]. eauto.
  - intros _. eauto.
Qed.

(** X13.  [list_columns] on a table with a [geometry] column lists
    [geometry] exactly when some entry of that column is not null, and
    lists every other label of the table in both cases. *)
Theorem list_columns_geometry (self : ExtractTable) (t : DataFrame) (s : Series) :
  __table self = Some t -> getitem t "geometry" = Returns s ->
  exists l,
    list_columns self = Returns l
    /\ (In "geometry" l <-> exists x, In x (values s) /\ isna x = false)
    /\ (forall c, c <> "geometry" -> (In c l <-> In c (columns t))).
Proof.
  intros Ht Hs. unfold list_columns, __has_spatial_data. rewrite Ht, Hs. simpl.
  destruct (getitem_values t "geometry" s Hs) as [i [Hi _]].
  destruct (forallb isna (values s)) eqn:E; simpl; eexists;
    (split; [reflexivity|]); split.
  - split.
    + intros H. apply filter_In in H. destruct H as [_ H]. discriminate H.
    + intros [x [Hin Hx]].
      rewrite (proj1 (forallb_forall isna (values s)) E x Hin) in Hx.
      discriminate.
  - intros c Hc. rewrite filter_In. split; [tauto|].
    intros H. split; [assumption|].
    destruct (String.eqb_spec c "geometry"); [contradiction | reflexivity].
  - split.
    + intros _. now apply forallb_false_exists.
    + intros _. now apply (col_pos_In _ _ i).
  - tauto.
Qed.

Lemma cell_eqb_eq (a b : cell) : cell_eqb a b = true <-> a = b.
Proof.
  destruct a, b; simpl; split; intros H; try discriminate; try reflexivity.
  - apply String.eqb_eq in H. now subst.
  - injection H as ->. apply String.eqb_refl.
  - apply Z.eqb_eq in H. now subst.
  - injection H as ->. apply Z.eqb_refl.
  - apply String.eqb_eq in H. now subst.
  - injection H as ->. apply String.eqb_refl.
Qed.

Lemma existsb_cell_In (c : cell) (l : list cell) :
  existsb (cell_eqb c) l = true <-> In c l.
Proof.
  rewrite existsb_exists. split.
  - intros [x [Hin Hx]]. apply cell_eqb_eq in Hx. now subst.
  - intros H. exists c. split; [assumption | now apply cell_eqb_eq].
Qed.

Lemma unique_from_In (l : list cell) :
  forall seen x, In x (unique_from seen l) <-> In x l /\ ~ In x seen.
Proof.
  induction l as [|c l IH]; intros seen x; simpl; [tauto|].
  destruct (existsb (cell_eqb c) seen) eqn:E.
  - apply existsb_cell_In in E. rewrite IH. split.
    + tauto.
    + intros [[-> | H] Hn]; [contradiction | tauto].
  - assert (Hc : ~ In c seen).
    { intros H. apply existsb_cell_In in H. congruence. }
    simpl. rewrite IH. simpl. split.
    + intros [-> | [H Hn]]; [tauto|]. split; [tauto|]. intros H'. tauto.
    + intros [[-> | H] Hn]; [tauto|].
      destruct (existsb (cell_eqb c) [x]) eqn:Ex.
      * apply existsb_cell_In in Ex. destruct Ex as [-> | []]. tauto.
      * right. split; [assumption|]. intros [-> | H']; [|contradiction].
        simpl in Ex. rewrite (proj2 (cell_eqb_eq x x) eq_refl) in Ex.
        discriminate.
Qed.

Lemma unique_from_NoDup (l : list cell) :
  forall seen, NoDup (unique_from seen l).
Proof.
  induction l as [|c l IH]; intros seen; simpl; [constructor|].
  destruct (existsb (cell_eqb c) seen); [apply IH|].
  constructor; [|apply IH].
  rewrite unique_from_In. simpl. tauto.
Qed.

(** X14.  [list_values] with a column argument, on a loaded table: when
    the label is a column, the plain listing has one entry per row and
    the unique listing has the same entries without repetition; when the
    label is no column, the [KeyError] "Unable to find column" is raised.
    The column that is set plays no part. *)
Theorem list_values_of_column (self : ExtractTable) (t : DataFrame) (c : string) :
  __table self = Some t ->
  (has_column t c = true ->
   exists vs us,
     list_values self (Some c) false = Returns vs
     /\ list_values self (Some c) true = Returns us
     /\ length vs = nrows t
     /\ NoDup us
     /\ (forall x, In x us <-> In x vs))
  /\ (has_column t c = false ->
      forall u, list_values self (Some c) u = Raises (UnableToFindColumn c)).
Proof.
  intros Ht. unfold list_values. rewrite Ht. split; intros Hc.
  - destruct (has_column_getitem t c Hc) as [s Hs]. rewrite Hs. simpl.
    exists (values s), (unique (values s)).
    repeat split; try reflexivity.
    + now apply (getitem_length t c).
    + apply unique_from_NoDup.
    + unfold unique. rewrite unique_from_In. tauto.
    + unfold unique. rewrite unique_from_In. simpl. tauto.
  - intros u. now rewrite (no_column_getitem t c Hc).
Qed.


(** *** Reading files *)

Lemma read_with_readonly (r : reader) (f : string) (os : OS) :
  snd (read_with r f os) = os /\ fst (read_with r f os) <> OutOfFuel.
Proof.
  unfold read_with.
  destruct (lookup (path_parts f) (os_files os)) as [[parse ms|w df]|]; simpl.
  - destruct (parse r); simpl; (split; [reflexivity | discriminate]).
  - destruct (reread w df r); simpl; (split; [reflexivity | discriminate]).
  - split; [reflexivity | discriminate].
Qed.

Lemma read_inferred_readonly (f ext : string) (os : OS) :
  snd (__read_inferred f ext os) = os
  /\ fst (__read_inferred f ext os) <> OutOfFuel.
Proof.
  unfold __read_inferred.
  repeat match goal with
         | |- context [if ?b then _ else _] => destruct b
         end;
    try apply read_with_readonly; try (split; [reflexivity | discriminate]).
  unfold try_.
  destruct (read_with_readonly read_csv f os) as [H1 H2].
  destruct (read_with read_csv f os) as [[df|e|] os1]; simpl in *; subst.
  - split; [reflexivity | discriminate].
  - apply read_with_readonly.
  - contradiction.
Qed.

(** X15.  Reading a file whose extension is not [.zip] takes no fuel and
    leaves the operating system as it was; on success the name handed
    back is the name given and the frame has a [geometry] column. *)
Theorem read_file_not_archive (fuel : nat) (f : string) (os : OS) :
  __get_extension f <> ".zip" ->
  __read_file fuel (PyStr f) os = __read_file 0 (PyStr f) os
  /\ snd (__read_file fuel (PyStr f) os) = os
  /\ fst (__read_file fuel (PyStr f) os) <> OutOfFuel
  /\ (forall name' gdf os',
        __read_file fuel (PyStr f) os = (Returns (name', gdf), os') ->
        name' = f /\ has_column gdf "geometry" = true).
Proof.
  intros Hext.
  assert (E : forall n, __read_file n (PyStr f) os
                        = try_ (df <- __read_inferred f (__get_extension f) ;;
                                ret (f, __geometrize_gdf df))%os
                               (fun _ => (df <- read_with gpd_read_file f ;;
                                          ret (f, __geometrize_gdf df))%os) os).
  { intros n. destruct n; simpl;
      destruct (String.eqb_spec (__get_extension f) ".zip");
      try contradiction; reflexivity. }
  split; [now rewrite (E fuel), (E 0)|].
  rewrite (E fuel). unfold try_, bind, ret.
  destruct (read_inferred_readonly f (__get_extension f) os) as [H1 H2].
  destruct (__read_inferred f (__get_extension f) os) as [[df|e|] os1];
    simpl in *; subst os1.
  - split; [reflexivity|]. split; [discriminate|].
    intros n g o H. injection H as <- <- _.
    split; [reflexivity | apply geometrize_has_geometry].
  - destruct (read_with_readonly gpd_read_file f os) as [G1 G2].
    destruct (read_with gpd_read_file f os) as [[df|e'|] os2]; simpl in *; subst.
    + split; [reflexivity|]. split; [discriminate|].
      intros n g o H. injection H as <- <- _.
      split; [reflexivity | apply geometrize_has_geometry].
    + split; [reflexivity|]. split; [discriminate|].
      intros n g o H. discriminate H.
    + contradiction.
  - contradiction.
Qed.

(** X16.  A [.csv] file is tried with [read_csv], then with [read_csv] in
    ISO-8859-1, then with the reader of geopandas; the first that parses
    gives the table, and the load fails when none does. *)
Theorem read_csv_fallbacks (fuel : nat) (f : string) (os : OS)
  (parse : reader -> option DataFrame) (ms : option (list (string * content))) :
  __get_extension f = ".csv" ->
  lookup (path_parts f) (os_files os) = Some (File parse ms) ->
  __read_file fuel (PyStr f) os
  = (match parse read_csv, parse read_csv_latin1, parse gpd_read_file with
     | Some df, _, _ | None, Some df, _ | None, None, Some df =>
         Returns (f, __geometrize_gdf df)
     | None, None, None => Raises (Lib ValueError f)
     end, os).
Proof.
  intros Hext Hfile.
  assert (R : forall r, read_with r f os
                        = (match parse r with
                           | Some df => Returns df
                           | None => Raises (Lib ValueError f)
                           end, os)).
  { intros r. unfold read_with. rewrite Hfile. now destruct (parse r). }
  assert (E : __read_file fuel (PyStr f) os
              = try_ (df <- __read_inferred f ".csv" ;;
                      ret (f, __geometrize_gdf df))%os
                     (fun _ => (df <- read_with gpd_read_file f ;;
                                ret (f, __geometrize_gdf df))%os) os).
  { destruct fuel; cbn [__read_file os_fspath]; rewrite Hext; reflexivity. }
  rewrite E. unfold try_, bind, ret, __read_inferred.
  cbn [String.eqb Ascii.eqb Bool.eqb].
  unfold try_. rewrite !R.
  destruct (parse read_csv); [reflexivity|]. rewrite ?R.
  destruct (parse read_csv_latin1); [reflexivity|]. rewrite ?R.
  destruct (parse gpd_read_file); reflexivity.
Qed.



(** *** Archives *)



(** X19.  When [__unzip] returns, the target (the archive name without
    its extension) is a directory, and the names it returns are, in the
    order of the file table, the regular files immediately in that
    directory, each joined to the target; when it raises, the exception
    comes from the extraction or from [next], never from the module's own
    [raise IOError]. *)
Theorem unzip_outcomes (filename : string) (os : OS) :
  let cwd := fst (splitext filename) in
  (forall files os',
      __unzip filename os = (Returns files, os') ->
      os_path_isdir os' (path_parts cwd) = true
      /\ files = map (fun q => os_path_join cwd (last (fst q) ""))
                   (filter (fun q => path_eqb (parent (fst q)) (path_parts cwd)
                                     && negb (path_eqb (fst q) (path_parts cwd)))
                      (os_files os')))
  /\ (forall e os',
        __unzip filename os = (Raises e, os') -> exists cls what, e = Lib cls what).
Proof.
  intros cwd. pose proof (unzip_cases filename os) as C. simpl in C. fold cwd in C.
  pose proof (extractall_raises_lib filename cwd os) as L.
  destruct (extractall filename cwd os) as [[u|e0|] os0]; simpl in L.
  - destruct (os_path_isdir os0 (path_parts cwd)) eqn:Hd.
    + destruct C as [fs [Hw Hu]]. rewrite Hu. split.
      * intros files os' H. injection H as <- <-. split; [assumption|].
        unfold next_os_walk in Hw. rewrite Hd in Hw. injection Hw as <-.
        now rewrite map_map.
      * intros e os' H. discriminate H.
    + rewrite C. split.
      * intros files os' H. discriminate H.
      * intros e os' H. injection H as <- _. eauto.
  - rewrite C. split.
    + intros files os' H. discriminate H.
    + intros e os' H. injection H as <- _. now apply L.
  - rewrite C. split; intros ? ? H; discriminate H.
Qed.

(** *** Loading *)

(** X20.  A load from a path (a [str] or a [pathlib.Path]) on an instance
    without infile that raises leaves the instance as it was, and what it
    raises is the [FileNotFoundError] "... not found", carrying the
    refusal of the frame constructor and not the failure of the
    readers. *)
Theorem load_from_path_fails (fuel : nat) (self self' : ExtractTable)
  (origin : pyobj) (p : string) (os os' : OS) (e : exn) :
  os_fspath origin = Returns p -> __infile self = None ->
  infile_setter fuel self origin os = (Raises e, self', os') ->
  self' = self
  /\ e = NotFound (Lib ValueError "DataFrame constructor not properly called!")
  /\ NotFoundError e.
Proof.
  intros Hp Hi. unfold infile_setter. rewrite Hi.
  assert (Hn : is_None origin = false)
    by (destruct origin; try discriminate Hp; reflexivity).
  assert (Hg : GeoDataFrame origin
               = Raises (Lib ValueError "DataFrame constructor not properly called!"))
    by (destruct origin; try discriminate Hp; reflexivity).
  rewrite Hn, Hg. simpl.
  assert (Hs : set__infile self None = self).
  { destruct self; simpl in *. now subst. }
  destruct (__read_file fuel origin os) as [[[f t]|e0|] os1]; try discriminate.
  intros H. injection H as <- <- _. rewrite Hs.
  repeat split. left. eauto.
Qed.

(** Adopting an in-memory frame on an instance without infile
    always returns: the table becomes the geometrized frame, whatever
    table there was, the infile stays [None] and the operating system is
    not touched. *)
Theorem load_in_memory (fuel : nat) (self : ExtractTable) (df : DataFrame) (os : OS) :
  __infile self = None ->
  infile_setter fuel self (PyFrame df) os
  = (Returns tt, set__table self (Some (__geometrize_gdf df)), os).
Proof.
  intros Hi. unfold infile_setter. rewrite Hi.
  assert (Hs : set__infile self None = self).
  { destruct self; simpl in *. now subst. }
  destruct fuel; simpl; now rewrite Hs.
Qed.


(** *** Writing *)

Lemma lookup_store (p : Path) (c : content) (files : list (Path * content)) :
  lookup p (store p c files) = Some c.
Proof.
  induction files as [|[q c'] files IH]; simpl.
  - now rewrite path_eqb_refl.
  - destruct (path_eqb p q) eqn:E; simpl.
    + now rewrite path_eqb_refl.
    + now rewrite E.
Qed.

Lemma write_file_returns (p : Path) (c : content) (os os' : OS) (u : unit) :
  write_file p c os = (Returns u, os') ->
  os' = mkOS (os_dirs os) (store p c (os_files os)) (os_refused os) (os_stdout os)
  /\ os_path_isdir os (parent p) = true.
Proof.
  unfold write_file.
  destruct (os_path_isdir os (parent p)); simpl; [|discriminate].
  destruct (os_refused os p || os_path_isdir os p); [discriminate|].
  intros H; injection H as _ <-. auto.
Qed.

(** What a call of [extract_to_file] with a destination comes to, once
    the frame is extracted: one write; after a failed write the directory
    of the stored outfile is created and the write is made once more. *)
Lemma extract_to_file_cases (fuel : nat) (self : ExtractTable)
  (outfile' driver : option string) (os : OS) (gdf : DataFrame) (geo : bool)
  (filename : pathlike) :
  extract self = Returns gdf ->
  __has_spatial_data gdf = Returns geo ->
  match outfile' with
  | Some s => Some (AsStr s)
  | None => option_map AsPath (outfile self)
  end = Some filename ->
  extract_to_file (S fuel) self outfile' driver os
  = match write_extracted self gdf geo filename
            (__get_extension (fspath filename)) driver os with
    | (Returns u, os1) => (Returns u, os1)
    | (Raises e, _) =>
        match outfile_parent self with
        | Returns dir =>
            match os_makedirs dir os with
            | (Returns _, os1) =>
                match write_extracted self gdf geo filename
                        (__get_extension (fspath filename)) driver os1 with
                | (Returns u, os2) => (Returns u, os2)
                | _ => (Raises (ExtractionFailed e), os1)
                end
            | _ => (Raises (ExtractionFailed e), os)
            end
        | _ => (Raises (ExtractionFailed e), os)
        end
    | (OutOfFuel, os1) => (OutOfFuel, os1)
    end.
Proof.
  intros Hx Hgeo Hfn.
  destruct (extract_to_file_fuel fuel self outfile' driver os) as [-> _].
  change (extract_to_file 1 self outfile' driver os)
    with (extract_to_file_body (extract_to_file 0 self outfile' driver)
            self outfile' driver os).
  unfold extract_to_file_body at 1. unfold bind at 1 2, lift.
  rewrite Hx, Hgeo, Hfn. unfold try_ at 1.
  destruct (write_extracted self gdf geo filename
              (__get_extension (fspath filename)) driver os)
    as [[u|e|] os1] eqn:W1; try reflexivity.
  apply (write_extracted_raises _ _ _ _ _ _ _ _ _ Hgeo) in W1. subst os1.
  unfold try_, bind.
  destruct (outfile_parent self) as [dir|e'|] eqn:Hp;
    [ | reflexivity
      | unfold outfile_parent in Hp; destruct (__outfile self); discriminate ].
  destruct (makedirs_outcome dir os) as [[e' ->] | [-> Hd]]; [reflexivity|].
  change (extract_to_file 0 self outfile' driver)
    with (extract_to_file_body out_of_fuel self outfile' driver).
  unfold extract_to_file_body, bind, lift.
  rewrite Hx, Hgeo, Hfn. unfold try_.
  pose proof (write_extracted_never_diverges self gdf geo filename
                (__get_extension (fspath filename)) driver
                (add_dirs os (prefixes dir)) Hgeo) as Hnd.
  destruct (write_extracted self gdf geo filename
              (__get_extension (fspath filename)) driver
              (add_dirs os (prefixes dir)))
    as [[u|e2|] os2] eqn:W2; simpl in Hnd; [reflexivity | | contradiction].
  apply (write_extracted_raises _ _ _ _ _ _ _ _ _ Hgeo) in W2. subst os2.
  rewrite Hp.
  now rewrite (makedirs_existing dir _ (isdir_after_makedirs os dir)).
Qed.

(** X22.  [extract_to_file] calls itself at most once: with one unit of
    fuel or more it returns or raises, and the outcome is the same for
    every such amount. *)
Theorem extract_to_file_one_retry (fuel : nat) (self : ExtractTable)
  (outfile' driver : option string) (os : OS) :
  extract_to_file (S fuel) self outfile' driver os
  = extract_to_file 1 self outfile' driver os
  /\ ((exists os', extract_to_file (S fuel) self outfile' driver os = (Returns tt, os'))
      \/ (exists e os',
            extract_to_file (S fuel) self outfile' driver os = (Raises e, os'))).
Proof.
  destruct (extract_to_file_fuel fuel self outfile' driver os) as [E Hnd].
  split; [exact E|].
  destruct (extract_to_file (S fuel) self outfile' driver os) as [[[]|e|] os'].
  - left. eauto.
  - right. eauto.
  - now elim Hnd.
Qed.


Lemma inferred_file_writer (self : ExtractTable) (df : DataFrame)
  (filename : pathlike) (ext : string) :
  exists w,
    __extract_to_inferred_file self df filename ext
    = write_file (place filename) (Output w df)
    /\ (forall d, w <> to_file d)
    /\ (ext = ".csv" ->
        w = to_csv (match column self with Some _ => true | None => false end)).
Proof.
  unfold __extract_to_inferred_file.
  destruct (String.eqb_spec ext ".csv") as [->|Hne].
  - eexists. split; [reflexivity|]. split; [discriminate | reflexivity].
  - repeat match goal with
           | |- context [if ?b then _ else _] => destruct b
           end;
      eexists; (split; [reflexivity|]);
      (split; [discriminate | intros H; contradiction]).
Qed.

Lemma non_spatial_write (self : ExtractTable) (gdf : DataFrame)
  (filename : pathlike) (ext : string) (driver : option string) :
  __has_spatial_data gdf = Returns false ->
  exists w df,
    drop gdf "geometry" = Returns df
    /\ write_extracted self gdf false filename ext driver
       = write_file (place filename) (Output w df)
    /\ (forall d, w <> to_file d)
    /\ (ext = ".csv" ->
        w = to_csv (match column self with Some _ => true | None => false end)).
Proof.
  intros Hgeo.
  assert (Hd : exists df, drop gdf "geometry" = Returns df).
  { unfold __has_spatial_data, getitem in Hgeo. unfold drop.
    destruct (col_pos (columns gdf) "geometry"); [eauto | discriminate]. }
  destruct Hd as [df Hd].
  destruct (inferred_file_writer self df filename ext) as [w [Hw [Hnot Hcsv]]].
  exists w, df. split; [assumption|]. split; [|auto].
  unfold write_extracted; simpl. unfold bind, lift. rewrite Hd, <- Hw.
  reflexivity.
Qed.

(** A call with a destination that returns ends with a write that
    returned, made on the files the call started with. *)
Lemma extract_to_file_returns_write (fuel : nat) (self : ExtractTable)
  (outfile' driver : option string) (os os' : OS) (gdf : DataFrame) (geo : bool)
  (filename : pathlike) :
  extract self = Returns gdf ->
  __has_spatial_data gdf = Returns geo ->
  match outfile' with
  | Some s => Some (AsStr s)
  | None => option_map AsPath (outfile self)
  end = Some filename ->
  extract_to_file (S fuel) self outfile' driver os = (Returns tt, os') ->
  exists os0,
    write_extracted self gdf geo filename (__get_extension (fspath filename))
      driver os0 = (Returns tt, os')
    /\ os_files os0 = os_files os /\ os_stdout os0 = os_stdout os
    /\ os_refused os0 = os_refused os.
Proof.
  intros Hx Hgeo Hfn.
  rewrite (extract_to_file_cases fuel self outfile' driver os gdf geo filename
             Hx Hgeo Hfn).
  destruct (write_extracted self gdf geo filename
              (__get_extension (fspath filename)) driver os)
    as [[[]|e|] os1] eqn:W1.
  - intros H; injection H as <-. exists os. auto.
  - destruct (outfile_parent self) as [dir|e'|]; try discriminate.
    destruct (makedirs_outcome dir os) as [[e' ->] | [-> Hd]]; [discriminate|].
    destruct (write_extracted self gdf geo filename
                (__get_extension (fspath filename)) driver
                (add_dirs os (prefixes dir)))
      as [[[]|e2|] os2] eqn:W2; try discriminate.
    intros H; injection H as <-. exists (add_dirs os (prefixes dir)). auto.
  - discriminate.
Qed.

Lemma extract_to_file_needs_frame (fuel : nat) (self : ExtractTable)
  (outfile' driver : option string) (os os' : OS) :
  extract_to_file (S fuel) self outfile' driver os = (Returns tt, os') ->
  exists gdf geo, extract self = Returns gdf /\ __has_spatial_data gdf = Returns geo.
Proof.
  simpl. unfold extract_to_file_body, bind, lift.
  destruct (extract self) as [gdf|e|]; try discriminate.
  destruct (__has_spatial_data gdf) as [geo|e|] eqn:Hgeo; try discriminate.
  intros _. eauto.
Qed.

(** X23.  A call of [extract_to_file] with a destination that returns has
    stored, at the place the destination names, an output of the
    extracted frame; the directory of that place exists, and nothing was
    rendered to standard output. *)
Theorem extract_to_file_writes_destination (fuel : nat) (self : ExtractTable)
  (outfile' driver : option string) (os os' : OS) (filename : pathlike) :
  match outfile' with
  | Some s => Some (AsStr s)
  | None => option_map AsPath (outfile self)
  end = Some filename ->
  extract_to_file (S fuel) self outfile' driver os = (Returns tt, os') ->
  exists w df,
    lookup (place filename) (os_files os') = Some (Output w df)
    /\ os_path_isdir os' (parent (place filename)) = true
    /\ os_stdout os' = os_stdout os.
Proof.
  intros Hfn Hret.
  destruct (extract_to_file_needs_frame _ _ _ _ _ _ Hret) as [gdf [geo [Hx Hgeo]]].
  destruct (extract_to_file_returns_write _ _ _ _ _ _ _ _ _ Hx Hgeo Hfn Hret)
    as [os0 [W [_ [Hs _]]]].
  destruct (write_extracted_writes self gdf geo filename
              (__get_extension (fspath filename)) driver Hgeo) as [w [df Hw]].
  rewrite Hw in W. apply write_file_returns in W. destruct W as [-> Hdir].
  exists w, df. simpl. split; [apply lookup_store|]. split; assumption.
Qed.

(** X24.  A table without spatial data is never handed to the writer of
    geopandas, whatever the extension of the destination and whatever
    driver is asked for: what a call that returns has stored is the
    extracted frame without its [geometry] column, written by one of the
    tabular writers. *)
Theorem non_spatial_written_as_table (fuel : nat) (self : ExtractTable)
  (outfile' driver : option string) (os os' : OS) (filename : pathlike)
  (gdf : DataFrame) :
  match outfile' with
  | Some s => Some (AsStr s)
  | None => option_map AsPath (outfile self)
  end = Some filename ->
  extract self = Returns gdf ->
  __has_spatial_data gdf = Returns false ->
  extract_to_file (S fuel) self outfile' driver os = (Returns tt, os') ->
  exists w df,
    drop gdf "geometry" = Returns df
    /\ lookup (place filename) (os_files os') = Some (Output w df)
    /\ (forall d, w <> to_file d).
Proof.
  intros Hfn Hx Hgeo Hret.
  destruct (extract_to_file_returns_write _ _ _ _ _ _ _ _ _ Hx Hgeo Hfn Hret)
    as [os0 [W _]].
  destruct (non_spatial_write self gdf filename
              (__get_extension (fspath filename)) driver Hgeo)
    as [w [df [Hd [Hw [Hnot _]]]]].
  rewrite Hw in W. apply write_file_returns in W. destruct W as [-> _].
  exists w, df. simpl. split; [assumption|]. split; [apply lookup_store | assumption].
Qed.

(** X25.  To a destination with the extension [.csv] (in any case of the
    letters), and unless a spatial table is written with an explicit
    driver, a call that returns has stored the frame through [to_csv]:
    with its index exactly when a column is set, with its [geometry]
    column exactly when the frame has spatial data. *)
Theorem csv_written_with_index_iff_column (fuel : nat) (self : ExtractTable)
  (outfile' driver : option string) (os os' : OS) (filename : pathlike)
  (gdf : DataFrame) (geo : bool) :
  match outfile' with
  | Some s => Some (AsStr s)
  | None => option_map AsPath (outfile self)
  end = Some filename ->
  __get_extension (fspath filename) = ".csv" ->
  extract self = Returns gdf ->
  __has_spatial_data gdf = Returns geo ->
  geo = false \/ driver = None ->
  extract_to_file (S fuel) self outfile' driver os = (Returns tt, os') ->
  exists df,
    (if geo then df = gdf else drop gdf "geometry" = Returns df)
    /\ lookup (place filename) (os_files os')
       = Some (Output (to_csv (match column self with
                               | Some _ => true
                               | None => false
                               end)) df).
Proof.
  intros Hfn Hext Hx Hgeo Hor Hret.
  destruct (extract_to_file_returns_write _ _ _ _ _ _ _ _ _ Hx Hgeo Hfn Hret)
    as [os0 [W _]].
  rewrite Hext in W. destruct geo.
  - destruct Hor as [Hf | ->]; [discriminate|].
    unfold write_extracted, __extract_to_inferred_file in W. simpl in W.
    apply write_file_returns in W. destruct W as [-> _].
    exists gdf. simpl. split; [reflexivity | apply lookup_store].
  - destruct (non_spatial_write self gdf filename ".csv" driver Hgeo)
      as [w [df [Hd [Hw [_ Hcsv]]]]].
    rewrite Hw, (Hcsv eq_refl) in W.
    apply write_file_returns in W. destruct W as [-> _].
    exists df. simpl. split; [assumption | apply lookup_store].
Qed.


(** X26.  What [extract_to_file] raises: either the [RuntimeError]
    "Extraction failed", and then a destination was in effect and the
    frame had been extracted; or the exception of [extract] itself or of
    the look at the [geometry] column, passed on as it is (it is not
    wrapped), and then the operating system is untouched. *)
Theorem extract_to_file_raises (fuel : nat) (self : ExtractTable)
  (outfile' driver : option string) (os os' : OS) (e : exn) :
  extract_to_file (S fuel) self outfile' driver os = (Raises e, os') ->
  (WriteError e
   /\ match outfile' with
      | Some s => Some (AsStr s)
      | None => option_map AsPath (outfile self)
      end <> None
   /\ exists gdf, extract self = Returns gdf)
  \/ (os' = os
      /\ (extract self = Raises e
          \/ exists gdf,
               extract self = Returns gdf /\ __has_spatial_data gdf = Raises e)).
Proof.
  destruct (extract self) as [gdf|e0|] eqn:Hx;
    [ | simpl; unfold extract_to_file_body, bind, lift; rewrite Hx;
        intros H; injection H as <- <-; right; auto
      | simpl; unfold extract_to_file_body, bind, lift; rewrite Hx; discriminate ].
  destruct (__has_spatial_data gdf) as [geo|e0|] eqn:Hgeo;
    [ | simpl; unfold extract_to_file_body, bind, lift; rewrite Hx, Hgeo;
        intros H; injection H as <- <-; right; split; [reflexivity|];
        right; exists gdf; auto
      | simpl; unfold extract_to_file_body, bind, lift; rewrite Hx, Hgeo;
        discriminate ].
  destruct (match outfile' with
            | Some s => Some (AsStr s)
            | None => option_map AsPath (outfile self)
            end) as [filename|] eqn:Hfn.
  - rewrite (extract_to_file_cases fuel self outfile' driver os gdf geo filename
               Hx Hgeo Hfn).
    assert (Hw : forall cause, WriteError (ExtractionFailed cause))
      by (intros cause; eexists; reflexivity).
    intros H. left. split; [|split; [discriminate | eauto]].
    destruct (write_extracted self gdf geo filename
                (__get_extension (fspath filename)) driver os)
      as [[[]|e1|] os1]; try discriminate.
    destruct (outfile_parent self) as [dir|e'|];
      try (injection H as <- _; apply Hw).
    destruct (makedirs_outcome dir os) as [[e' Hm] | [Hm Hd]]; rewrite Hm in H;
      [injection H as <- _; apply Hw|].
    destruct (write_extracted self gdf geo filename
                (__get_extension (fspath filename)) driver
                (add_dirs os (prefixes dir)))
      as [[[]|e2|] os2]; try discriminate; injection H as <- _; apply Hw.
  - simpl. unfold extract_to_file_body, bind, lift. rewrite Hx, Hgeo, Hfn.
    destruct geo; [discriminate|].
    unfold __has_spatial_data, getitem in Hgeo. unfold drop.
    destruct (col_pos (columns gdf) "geometry"); discriminate.
Qed.

(** X27.  With no destination, neither in the call nor stored,
    [extract_to_file] renders the extracted frame to standard output as
    text, without its [geometry] column when the frame has no spatial
    data; no file and no directory is created, and no fuel is needed. *)
Theorem extract_to_stdout (fuel : nat) (self : ExtractTable)
  (driver : option string) (os : OS) (gdf : DataFrame) (geo : bool) :
  outfile self = None ->
  extract self = Returns gdf ->
  __has_spatial_data gdf = Returns geo ->
  exists df,
    (if geo then df = gdf else drop gdf "geometry" = Returns df)
    /\ extract_to_file fuel self None driver os
       = (Returns tt,
          mkOS (os_dirs os) (os_files os) (os_refused os)
               (os_stdout os ++ [(to_string, df)])).
Proof.
  intros Ho Hx Hgeo.
  assert (E : extract_to_file fuel self None driver os
              = extract_to_file_body out_of_fuel self None driver os).
  { destruct fuel; simpl; [reflexivity|].
    unfold extract_to_file_body, bind, lift. rewrite Hx, Hgeo, Ho. reflexivity. }
  rewrite E. unfold extract_to_file_body, bind, lift. rewrite Hx, Hgeo, Ho. simpl.
  destruct geo.
  - exists gdf. split; reflexivity.
  - unfold __has_spatial_data, getitem in Hgeo. unfold drop.
    destruct (col_pos (columns gdf) "geometry"); [|discriminate].
    eexists. split; reflexivity.
Qed.



(** *** The command line *)





(** *** What [__geometrize_gdf] parses *)

Lemma col_pos_None (cols : list string) (c : string) :
  col_pos cols c = None <-> ~ In c cols.
Proof.
  induction cols as [|c' cols IH]; simpl; [tauto|].
  destruct (String.eqb_spec c' c) as [Heq|Hne].
  - split; [discriminate | intros H; elim H; auto].
  - destruct (col_pos cols c) as [j|]; simpl.
    + split; [discriminate|]. intros H. exfalso.
      destruct IH as [_ IH].
      assert (Hn : ~ In c cols) by (intros Hin; apply H; now right).
      specialize (IH Hn). discriminate.
    + split; [|reflexivity]. intros _ [H | H]; [contradiction|].
      now apply (proj1 IH).
Qed.

Lemma col_pos_lt (cols : list string) (c : string) :
  forall i, col_pos cols c = Some i -> i < length cols.
Proof.
  induction cols as [|c' cols IH]; intros i; simpl; [discriminate|].
  destruct (String.eqb c' c).
  - intros H; injection H as <-. lia.
  - destruct (col_pos cols c) as [j|]; [|discriminate].
    intros H; injection H as <-. specialize (IH j eq_refl). lia.
Qed.

Lemma col_pos_app_new (cols : list string) (c : string) :
  col_pos cols c = None -> col_pos (cols ++ [c]) c = Some (length cols).
Proof.
  induction cols as [|c' cols IH]; simpl.
  - now rewrite String.eqb_refl.
  - destruct (String.eqb c' c); [discriminate|].
    destruct (col_pos cols c); [discriminate|].
    intros _. now rewrite (IH eq_refl).
Qed.

Lemma col_pos_app_old (cols cols' : list string) (c : string) :
  forall j, col_pos cols c = Some j -> col_pos (cols ++ cols') c = Some j.
Proof.
  induction cols as [|c' cols IH]; intros j; simpl; [discriminate|].
  destruct (String.eqb c' c); [auto|].
  destruct (col_pos cols c) as [k|]; [|discriminate].
  intros H; injection H as <-. now rewrite (IH k eq_refl).
Qed.

Lemma col_pos_app_none (cols : list string) (g c : string) :
  c <> g -> col_pos cols c = None -> col_pos (cols ++ [g]) c = None.
Proof.
  intros Hne. induction cols as [|c' cols IH]; simpl.
  - destruct (String.eqb_spec g c); [congruence | reflexivity].
  - destruct (String.eqb c' c); [discriminate|].
    destruct (col_pos cols c); [discriminate|].
    intros _. now rewrite (IH eq_refl).
Qed.

Lemma col_pos_remove_self (cols : list string) (c : string) :
  NoDup cols -> forall i, col_pos cols c = Some i ->
  col_pos (remove_nth i cols) c = None.
Proof.
  induction 1 as [|c' cols Hnin Hnd IH]; intros i; simpl; [discriminate|].
  destruct (String.eqb_spec c' c) as [->|Hne].
  - intros H; injection H as <-. simpl. now apply col_pos_None.
  - destruct (col_pos cols c) as [j|] eqn:E; [|discriminate].
    intros H; injection H as <-. simpl.
    destruct (String.eqb_spec c' c); [contradiction|].
    now rewrite (IH j eq_refl).
Qed.

Lemma col_pos_inj (cols : list string) (c c' : string) :
  forall i, col_pos cols c = Some i -> col_pos cols c' = Some i -> c = c'.
Proof.
  induction cols as [|a cols IH]; intros i; simpl; [discriminate|].
  destruct (String.eqb_spec a c) as [<-|Hc];
    destruct (String.eqb_spec a c') as [<-|Hc']; try reflexivity.
  - intros H; injection H as <-.
    destruct (col_pos cols c'); discriminate.
  - destruct (col_pos cols c); [|discriminate].
    intros H; injection H as <-. discriminate.
  - destruct (col_pos cols c) as [j|]; [|discriminate].
    destruct (col_pos cols c') as [j'|]; [|intros _; discriminate].
    intros H; injection H as <-. intros H; injection H as ->.
    exact (IH j eq_refl eq_refl).
Qed.

(** Where a column and its cells are once another column is removed. *)
Definition shifted (i j : nat) : nat := if Nat.ltb j i then j else j - 1.

Lemma col_pos_remove_other (cols : list string) (g c : string) :
  c <> g ->
  forall i, col_pos cols g = Some i ->
    col_pos (remove_nth i cols) c = option_map (shifted i) (col_pos cols c).
Proof.
  intros Hne. induction cols as [|c' cols IH]; intros i; simpl; [discriminate|].
  destruct (String.eqb_spec c' g) as [->|Hg].
  - intros H; injection H as <-. simpl.
    destruct (String.eqb_spec g c); [congruence|].
    destruct (col_pos cols c) as [j|]; simpl; [|reflexivity].
    unfold shifted. simpl. now rewrite Nat.sub_0_r.
  - destruct (col_pos cols g) as [k|] eqn:E; [|discriminate].
    intros H; injection H as <-. simpl.
    destruct (String.eqb_spec c' c); [reflexivity|].
    rewrite (IH k eq_refl).
    destruct (col_pos cols c) as [j|] eqn:Ec; simpl; [|reflexivity].
    assert (Hjk : j <> k).
    { intros ->. apply Hne. symmetry. exact (col_pos_inj cols g c k E Ec). }
    f_equal. unfold shifted.
    change (Nat.ltb (S j) (S k)) with (Nat.ltb j k).
    destruct (Nat.ltb_spec j k); lia.
Qed.

Lemma nth_remove_nth (A : Type) (d : A) (l : list A) :
  forall i j, j <> i -> nth (shifted i j) (remove_nth i l) d = nth j l d.
Proof.
  unfold shifted.
  induction l as [|a l IH]; intros i j Hne.
  - assert (Hn : forall n, nth n (@nil A) d = d) by (intros [|?]; reflexivity).
    destruct i; cbn [remove_nth]; now rewrite !Hn.
  - destruct i as [|i]; simpl.
    + destruct j as [|j]; [contradiction|]. simpl. now rewrite Nat.sub_0_r.
    + destruct j as [|j]; simpl; [reflexivity|].
      assert (Hji : j <> i) by lia.
      specialize (IH i j Hji).
      change (Nat.ltb (S j) (S i)) with (Nat.ltb j i).
      destruct (Nat.ltb_spec j i).
      * simpl. exact IH.
      * simpl. rewrite Nat.sub_0_r.
        destruct j as [|j]; [lia|].
        simpl in IH. rewrite Nat.sub_0_r in IH. exact IH.
Qed.

Lemma remove_nth_length (A : Type) (l : list A) :
  forall i, i < length l -> S (length (remove_nth i l)) = length l.
Proof.
  induction l as [|a l IH]; intros i Hi; simpl in *; [lia|].
  destruct i; simpl; [reflexivity|]. rewrite IH; lia.
Qed.

Lemma map_cells_length (f : cell -> option cell) (l : list cell) :
  forall r, map_cells f l = Returns r -> length r = length l.
Proof.
  induction l as [|c l IH]; intros r; simpl.
  - intros H; now injection H as <-.
  - destruct (f c); [|discriminate].
    destruct (map_cells f l) as [r'|e|]; simpl; try discriminate.
    intros H; injection H as <-. simpl. now rewrite (IH r' eq_refl).
Qed.

Lemma append_cells_last (rs : list row) :
  forall vals k,
    length vals = length rs ->
    Forall (fun r => length (cells r) = k) rs ->
    map (fun r => nth k (cells r) CNull) (append_cells rs vals) = vals.
Proof.
  induction rs as [|r rs IH]; intros vals k Hl Hk; simpl.
  - destruct vals; [reflexivity | discriminate].
  - destruct vals as [|v vals]; [discriminate|]. simpl.
    inversion Hk as [|? ? Hr Hrs]; subst.
    rewrite app_nth2, Nat.sub_diag by lia. simpl.
    f_equal. apply IH; [simpl in Hl; lia | assumption].
Qed.

Lemma append_cells_old (rs : list row) :
  forall vals j,
    Forall (fun r => j < length (cells r)) rs ->
    map (fun r => nth j (cells r) CNull) (append_cells rs vals)
    = map (fun r => nth j (cells r) CNull) rs.
Proof.
  induction rs as [|r rs IH]; intros vals j Hj; simpl; [reflexivity|].
  inversion Hj as [|? ? Hr Hrs]; subst.
  rewrite app_nth1 by assumption. f_equal. now apply IH.
Qed.


Lemma rectangular_dropped (df : DataFrame) (i : nat) :
  rectangular df -> i < length (columns df) ->
  Forall (fun r => length (cells r) = length (remove_nth i (columns df)))
    (map (fun r => mkRow (label r) (remove_nth i (cells r))) (rows df)).
Proof.
  intros Hr Hi. apply Forall_map. refine (Forall_impl _ _ Hr).
  intros r Hl. cbn [cells].
  pose proof (remove_nth_length _ (columns df) i Hi) as H1.
  assert (Hi' : i < length (cells r)) by now rewrite Hl.
  pose proof (remove_nth_length _ (cells r) i Hi') as H2. lia.
Qed.

(** X21.  When every entry of the [geometry] column parses, the frame that
    [__geometrize_gdf] hands back has the parsed shapes, in the order of
    the rows, as its [geometry] column, and every other column reads as
    before (a label that was no column is still no column).  The frame is
    taken with distinct column labels and one cell per column in each
    row. *)
Theorem geometrize_parses (df : DataFrame) (s : Series) (parsed : list cell) :
  NoDup (columns df) -> rectangular df ->
  getitem df "geometry" = Returns s ->
  map_cells wkt_loads (values s) = Returns parsed ->
  getitem (__geometrize_gdf df) "geometry" = Returns (mkSeries "geometry" parsed)
  /\ forall c, c <> "geometry" -> getitem (__geometrize_gdf df) c = getitem df c.
Proof.
  intros Hnd Hrect Hs Hp.
  unfold __geometrize_gdf. rewrite Hs. cbn [obind]. rewrite Hp. cbn [obind].
  unfold getitem in Hs. unfold drop.
  destruct (col_pos (columns df) "geometry") as [i|] eqn:Ei; [|discriminate].
  injection Hs as <-. cbn [values] in Hp. cbn [obind].
  pose proof (col_pos_lt _ _ _ Ei) as Hi.
  pose proof (rectangular_dropped df i Hrect Hi) as Hrd.
  split.
  - unfold getitem, with_geometry. cbn [columns rows].
    rewrite (col_pos_app_new _ _ (col_pos_remove_self _ _ Hnd _ Ei)).
    f_equal. f_equal. apply append_cells_last; [|exact Hrd].
    rewrite (map_cells_length _ _ _ Hp). now rewrite !length_map.
  - intros c Hc. unfold getitem at 1, with_geometry. cbn [columns rows].
    pose proof (col_pos_remove_other (columns df) "geometry" c Hc i Ei) as Hpos.
    unfold getitem.
    destruct (col_pos (columns df) c) as [j|] eqn:Ej; cbn [option_map] in Hpos.
    + rewrite (col_pos_app_old _ ["geometry"] _ _ Hpos).
      f_equal. f_equal.
      rewrite append_cells_old.
      * rewrite map_map. apply map_ext. intros r. cbn [cells].
        apply nth_remove_nth. intros ->. apply Hc.
        exact (col_pos_inj _ _ _ _ Ej Ei).
      * refine (Forall_impl _ _ Hrd). intros r ->.
        exact (col_pos_lt _ _ _ Hpos).
    + now rewrite (col_pos_app_none _ _ _ Hc Hpos).
Qed.

End Methods.
(** ** The sample data through the methods *)

(** The instances above are what the calls produce. *)
Example sample_instances :
  infile_setter wkt_points reread_plain 0 blank (PyFrame states_raw) os_nothing
  = (Returns tt, et_states, os_nothing)
  /\ column_setter et_states (Some "state") = (Returns tt, et_by_state)
  /\ value_setter et_by_state (Some (VStr "CA")) = (Returns tt, et_CA)
  /\ infile_setter wkt_points reread_plain 0 blank (PyFrame unnamed_raw) os_nothing
     = (Returns tt, et_unnamed, os_nothing)
  /\ outfile_setter et_states (PyStr "out/new/dir/result.csv")
     = (Returns tt, et_states_out).
Proof. repeat split. Qed.

(** The end-to-end example of the specification: indexed by [state] and
    filtered on [CA], the extracted table has the rows of [a] and [b]. *)
Example extract_CA :
  extract wkt_points et_CA
  = Returns (mkDF ["id"; "value"; "geometry"] (Some "state")
               [ mkRow (CStr "CA") [CStr "a"; CInt 1; CNull];
                 mkRow (CStr "CA") [CStr "b"; CInt 2; CNull] ]).
Proof. reflexivity. Qed.

(** A list filter succeeds as soon as one of its values matches. *)
Example value_list_partial_match :
  fst (value_setter et_by_state (Some (VList ["NY"; "ZZ"]))) = Returns tt.
Proof. reflexivity. Qed.

(** Loading an archive with one member reads that member. *)
Example load_archive :
  exists os',
    infile_setter wkt_points reread_plain 1 blank (PyStr "data.zip") os_zip
    = (Returns tt,
       mkET (Some "data/in.csv") None None None (Some states) None false None,
       os')
    /\ os_dirs os' = [["data"]].
Proof. eexists. split; reflexivity. Qed.

(** C1.  The instance filtered on [CA] is asked to filter on [ZZ], which
    no row has: the setter raises and the stored value is still [CA], but
    the cached selection has been replaced by the empty one, so that
    [extract], which before gave the two rows of [CA], now gives none. *)
Theorem value_setter_partial_commit :
  value_setter et_CA (Some (VStr "ZZ"))
  = (Raises (NoValue "state" (VStr "ZZ")),
     set__extracted et_CA (Some states_nothing))
  /\ value (snd (value_setter et_CA (Some (VStr "ZZ")))) = Some (VStr "CA")
  /\ __extracted et_CA = Some states_CA
  /\ __extracted (snd (value_setter et_CA (Some (VStr "ZZ")))) = Some states_nothing
  /\ option_map nrows (__extracted et_CA) = Some 2
  /\ (exists r, extract wkt_points et_CA = Returns r /\ nrows r = 2)
  /\ (exists r, extract wkt_points (snd (value_setter et_CA (Some (VStr "ZZ"))))
                = Returns r /\ nrows r = 0).
Proof.
  repeat split; try (eexists; split; reflexivity).
Qed.

(** C2, as stated, fails: the table of states was adopted from memory, so
    no infile is stored; a second load with another in-memory table is
    not refused, it returns and replaces the loaded table. *)
Lemma load_twice_in_memory :
  __table et_states = Some states
  /\ infile_setter wkt_points reread_plain 0 et_states (PyFrame unnamed_raw) os_nothing
     = (Returns tt, et_unnamed, os_nothing)
  /\ __table et_unnamed <> __table et_states
  /\ ~ (exists e,
          infile_setter wkt_points reread_plain 0 et_states (PyFrame unnamed_raw)
            os_nothing
          = (Raises e, et_states, os_nothing)).
Proof.
  repeat split; try discriminate.
  intros [e H]. discriminate H.
Qed.

Lemma load_twice_from_path_witness :
  os_fspath (PyStr "in.csv") = Returns "in.csv"
  /\ infile_setter wkt_points reread_plain 0 blank (PyStr "in.csv") os_csv
  = (Returns tt,
     mkET (Some "in.csv") None None None (Some states) None false None, os_csv)
  /\ (__table (mkET (Some "in.csv") None None None (Some states) None false None)
      <> None
      /\ forall fuel' infile' os,
           is_None infile' = false ->
           exists e,
             infile_setter wkt_points reread_plain fuel'
               (mkET (Some "in.csv") None None None (Some states) None false None)
               infile' os
             = (Raises e,
                mkET (Some "in.csv") None None None (Some states) None false None,
                os)
             /\ AlreadyLoadedError e).
Proof.
  split; [reflexivity|]. split; [reflexivity|].
  apply (load_twice_from_path wkt_points reread_plain 0 blank _
           (PyStr "in.csv") "in.csv" os_csv os_csv);
    reflexivity.
Defined.

Lemma column_setter_spec_witness :
  __table et_states = Some states
  /\ ((has_column states "state" = true ->
       fst (column_setter et_states (Some "state")) = Returns tt
       /\ column (snd (column_setter et_states (Some "state"))) = Some "state"
       /\ value (snd (column_setter et_states (Some "state"))) = None
       /\ __table (snd (column_setter et_states (Some "state"))) = Some states)
      /\ (has_column states "state" = false ->
          exists e,
            column_setter et_states (Some "state") = (Raises e, et_states)
            /\ ColumnNotFoundError e)).
Proof.
  split; [reflexivity|].
  apply (column_setter_spec et_states states "state"). reflexivity.
Defined.

Example column_setter_missing_example :
  column_setter et_CA (Some "county")
  = (Raises (ColumnNotFound (Lib KeyError "county")), et_CA).
Proof. reflexivity. Qed.

Lemma invariant_et_states : invariant et_states.
Proof. split; intros H; now elim H. Qed.

Lemma extract_spec_witness :
  (exists e, extract wkt_points blank = Raises e /\ NoDataError e)
  /\ extract wkt_points et_states = Returns states
  /\ spec_filteredTable et_states = Some states.
Proof.
  split.
  - apply (proj1 (extract_spec wkt_points blank)). reflexivity.
  - destruct (proj2 (extract_spec wkt_points et_states) states eq_refl eq_refl)
      as [Hx Hf].
    split; [exact Hx | exact (Hf invariant_et_states)].
Defined.

(** C5.  On the table with a column labelled by the empty string, setting
    the column to that label returns and stores it, and [list_values]
    lists the column as the one that is set; but [extract] hands back the
    loaded table as it is: the index is still the row numbers and not the
    entries of the column, and the column is still among the columns. *)
Theorem empty_label_extract_not_indexed :
  has_column unnamed "" = true
  /\ fst (column_setter et_unnamed (Some "")) = Returns tt
  /\ column (snd (column_setter et_unnamed (Some ""))) = Some ""
  /\ list_values (snd (column_setter et_unnamed (Some ""))) None false
     = Returns [CStr "a"; CStr "b"]
  /\ extract wkt_points (snd (column_setter et_unnamed (Some ""))) = Returns unnamed
  /\ index unnamed = [CInt 0; CInt 1]
  /\ index_name unnamed = None
  /\ getitem unnamed "" = Returns (mkSeries "" [CStr "a"; CStr "b"])
  /\ index unnamed <> [CStr "a"; CStr "b"].
Proof. repeat split. discriminate. Qed.

(** C6.  The table of states is loaded, no outfile is stored, and the
    destination [out/new/dir/result.csv] is given in the call; the
    directory [out/new/dir] does not exist.  The write fails, and the
    handler fails in turn on [self.__outfile.parent]: the call raises
    "Extraction failed" with the operating system as it was, no directory
    created and no second write made, whatever the fuel. *)
Theorem extract_to_file_override_missing_directory (fuel : nat) :
  os_path_isdir os_nothing (parent (path_parts "out/new/dir/result.csv")) = false
  /\ extract_to_file wkt_points fuel et_states (Some "out/new/dir/result.csv") None
       os_nothing
     = (Raises (ExtractionFailed (Lib FileNotFoundError "out/new/dir/result.csv")),
        os_nothing).
Proof. split; [reflexivity|]. destruct fuel; reflexivity. Qed.

(** The same destination stored as the outfile: the directory tree is
    created and the second write succeeds. *)
Example extract_to_file_stored_outfile :
  extract_to_file wkt_points 1 et_states_out None None os_nothing
  = (Returns tt,
     mkOS [["out"]; ["out"; "new"]; ["out"; "new"; "dir"]]
          [(["out"; "new"; "dir"; "result.csv"],
            Output (to_csv false)
              (mkDF ["id"; "state"; "value"] None
                 [ mkRow (CInt 0) [CStr "a"; CStr "CA"; CInt 1];
                   mkRow (CInt 1) [CStr "b"; CStr "CA"; CInt 2];
                   mkRow (CInt 2) [CStr "c"; CStr "NY"; CInt 3] ]))]
          (os_refused os_nothing) []).
Proof. reflexivity. Qed.

(** C7.  The archive [data.zip] has no member and there is no directory
    [data]: the extraction returns without creating the target, the test
    [os.path.isdir(cwd) is None] is false, and [next(os.walk(cwd))] raises
    [StopIteration], which is no [IOError]. *)
Theorem unzip_empty_archive :
  extractall "data.zip" "data" os_empty_zip = (Returns tt, os_empty_zip)
  /\ os_path_isdir os_empty_zip (path_parts "data") = false
  /\ __unzip "data.zip" os_empty_zip = (Raises (Lib StopIteration "data"), os_empty_zip)
  /\ is_IOError (Lib StopIteration "data") = false.
Proof. repeat split. Qed.

(** An archive with a member is listed. *)
Example unzip_one_member :
  fst (__unzip "data.zip" os_zip) = Returns ["data/in.csv"].
Proof. reflexivity. Qed.

Lemma invariant_reachable_witness :
  reachable wkt_points reread_plain et_CA
  /\ invariant et_CA
  /\ invariant (after wkt_points reread_plain 0 (SetValue (Some (VStr "ZZ")))
                et_CA os_nothing).
Proof.
  assert (R : reachable wkt_points reread_plain et_CA).
  { apply (reach_init wkt_points reread_plain 0 (PyFrame states_raw) PyNone
             (Some "state") (Some (VStr "CA")) os_nothing et_CA os_nothing).
    reflexivity. }
  destruct (invariant_reachable wkt_points reread_plain) as [_ [Hstep Hreach]].
  split; [exact R|]. split.
  - exact (Hreach et_CA R).
  - exact (Hstep 0 (SetValue (Some (VStr "ZZ"))) et_CA os_nothing (Hreach et_CA R)).
Defined.

Lemma outfile_setter_spec_witness :
  outfile_setter et_states (PyStr "out/new/dir/result.csv")
  = (Returns tt, et_states_out)
  /\ outfile (snd (outfile_setter et_states (PyStr "out/new/dir/result.csv")))
     = Some ["out"; "new"; "dir"; "result.csv"]
  /\ outfile (snd (outfile_setter et_states_out (PyOther "42" None))) = None
  /\ outfile (snd (outfile_setter et_states_out PyNone)) = None.
Proof.
  split; [reflexivity|]. split; [|split].
  - apply (proj1 (proj2 (outfile_setter_spec et_states
                           (PyStr "out/new/dir/result.csv")))).
    reflexivity.
  - apply (proj1 (proj2 (proj2 (outfile_setter_spec et_states_out (PyOther "42" None))))).
    intros p. discriminate.
  - apply (proj2 (proj2 (proj2 (outfile_setter_spec et_states_out PyNone)))).
Defined.

Lemma empty_label_not_reindexed_witness :
  __table et_unnamed = Some unnamed
  /\ has_column unnamed "" = true
  /\ fst (column_setter et_unnamed (Some "")) = Returns tt
  /\ column (snd (column_setter et_unnamed (Some ""))) = Some ""
  /\ extract wkt_points (snd (column_setter et_unnamed (Some ""))) = Returns unnamed
  /\ extract wkt_points (snd (column_setter et_unnamed (Some "")))
     = extract wkt_points (set__column (snd (column_setter et_unnamed (Some ""))) None).
Proof.
  split; [reflexivity|]. split; [reflexivity|].
  apply (empty_label_not_reindexed wkt_points et_unnamed unnamed); reflexivity.
Defined.

(** Where the directory cannot be created, the extraction raises a
    [PermissionError], which is an [IOError]. *)
Example unzip_refused_directory :
  __unzip "data.zip" os_zip_refused
  = (Raises (Lib PermissionError "data/in.csv"), os_zip_refused)
  /\ is_IOError (Lib PermissionError "data/in.csv") = true.
Proof. split; reflexivity. Qed.

(** A list as long as the table is compared row by row: on the three
    rows [CA, CA, NY] the list [NY, ZZ, CA] selects nothing although two
    of its values occur. *)
Example value_list_same_length :
  fst (value_setter et_by_state (Some (VList ["NY"; "ZZ"; "CA"])))
  = Raises (NoValue "state" (VList ["NY"; "ZZ"; "CA"])).
Proof. reflexivity. Qed.


(** ** The further properties on the sample data *)

Lemma geometrize_unparsed_unchanged_witness :
  getitem states "geometry" = Returns (mkSeries "geometry" [CNull; CNull; CNull])
  /\ wkt_points CNull = None
  /\ __geometrize_gdf wkt_points states = states.
Proof.
  split; [reflexivity|]. split; [reflexivity|].
  apply (geometrize_unparsed_unchanged wkt_points states
           (mkSeries "geometry" [CNull; CNull; CNull]) CNull);
    [reflexivity | simpl; auto | reflexivity].
Defined.

Lemma reachable_et_CA : reachable wkt_points reread_plain et_CA.
Proof.
  apply (reach_init wkt_points reread_plain 0 (PyFrame states_raw) PyNone
           (Some "state") (Some (VStr "CA")) os_nothing et_CA os_nothing).
  reflexivity.
Qed.

Lemma loaded_table_has_geometry_witness :
  has_column states "geometry" = true
  /\ (exists b, __has_spatial_data states = Returns b)
  /\ (exists l, list_columns et_CA = Returns l).
Proof.
  apply (loaded_table_has_geometry wkt_points reread_plain et_CA states);
    [exact reachable_et_CA | reflexivity].
Defined.

Lemma table_frozen_once_infile_set_witness :
  __infile (after wkt_points reread_plain 0 (SetInfile (PyFrame unnamed_raw))
              (after wkt_points reread_plain 0 (SetColumn (Some "state"))
                 et_csv os_nothing) os_nothing) = Some "in.csv"
  /\ __table (after wkt_points reread_plain 0 (SetInfile (PyFrame unnamed_raw))
                (after wkt_points reread_plain 0 (SetColumn (Some "state"))
                   et_csv os_nothing) os_nothing) = __table et_csv.
Proof.
  apply (table_frozen_once_infile_set wkt_points reread_plain et_csv _ "in.csv");
    [reflexivity|].
  apply reaches_call. apply reaches_call. apply reaches_refl.
Defined.

Lemma extract_returns_after_read_file_witness :
  read_file wkt_points reread_plain 0 "in.csv" None None os_csv
  = (Returns et_csv, os_csv)
  /\ exists r,
       extract wkt_points
         (after wkt_points reread_plain 0 (SetValue (Some (VStr "ZZ")))
            (after wkt_points reread_plain 0 (SetColumn (Some "state"))
               et_csv os_nothing) os_nothing) = Returns r.
Proof.
  split; [reflexivity|].
  apply (extract_returns_after_read_file wkt_points reread_plain 0 "in.csv"
           None None os_csv os_csv et_csv);
    [reflexivity|].
  apply reaches_call. apply reaches_call. apply reaches_refl.
Defined.

Lemma init_stores_arguments_witness :
  __init__ wkt_points reread_plain 1 (PyStr "in.csv")
    (PyStr "out/new/dir/result.csv") (Some "state") (Some (VList ["CA"])) os_csv
  = (Returns et_cli, os_csv)
  /\ column et_cli = Some "state"
  /\ value et_cli = Some (VList ["CA"])
  /\ outfile et_cli = Some ["out"; "new"; "dir"; "result.csv"]
  /\ (Some "state" <> None -> __table et_cli <> None).
Proof.
  split; [reflexivity|].
  apply (init_stores_arguments wkt_points reread_plain 1 (PyStr "in.csv")
           (PyStr "out/new/dir/result.csv") (Some "state") (Some (VList ["CA"]))
           os_csv et_cli os_csv).
  reflexivity.
Defined.

Lemma init_raises_attribute_error_witness :
  fst (__init__ wkt_points reread_plain 0 (PyFrame states_raw) PyNone
         (Some "county") None os_nothing)
  = Raises (InitializationFailed (ColumnNotFound (Lib KeyError "county")))
  /\ (exists cause,
         InitializationFailed (ColumnNotFound (Lib KeyError "county"))
         = InitializationFailed cause)
  /\ class_of (InitializationFailed (ColumnNotFound (Lib KeyError "county")))
     = AttributeError
  /\ issubclass
       (class_of (InitializationFailed (ColumnNotFound (Lib KeyError "county"))))
       KeyError = false.
Proof.
  split; [reflexivity|].
  apply (init_raises_attribute_error wkt_points reread_plain 0
           (PyFrame states_raw) PyNone (Some "county") None os_nothing).
  reflexivity.
Defined.

Lemma init_needs_column_and_table_witness :
  (forall self,
      fst (__init__ wkt_points reread_plain 0 (PyFrame states_raw) PyNone None
             (Some (VStr "CA")) os_nothing) <> Returns self)
  /\ (forall self,
         fst (__init__ wkt_points reread_plain 0 PyNone PyNone (Some "state") None
                os_nothing) <> Returns self).
Proof.
  split.
  - apply (init_needs_column_and_table wkt_points reread_plain 0
             (PyFrame states_raw) PyNone None (Some (VStr "CA")) os_nothing).
    left. split; [reflexivity | discriminate].
  - apply (init_needs_column_and_table wkt_points reread_plain 0
             PyNone PyNone (Some "state") None os_nothing).
    right. split; [reflexivity | discriminate].
Defined.


Lemma value_setter_matches_witness :
  (existsb (spec_passes (VList ["NY"; "ZZ"])) (values state_column) = true ->
   value_setter et_by_state (Some (VList ["NY"; "ZZ"]))
   = (Returns tt,
      set__value
        (set__extracted et_by_state
           (Some (getitem_mask states
                    (map (spec_passes (VList ["NY"; "ZZ"])) (values state_column)))))
        (Some (VList ["NY"; "ZZ"]))))
  /\ (existsb (spec_passes (VList ["NY"; "ZZ"])) (values state_column) = false ->
      value_setter et_by_state (Some (VList ["NY"; "ZZ"]))
      = (Raises (NoValue "state" (VList ["NY"; "ZZ"])),
         set__extracted et_by_state
           (Some (getitem_mask states
                    (map (spec_passes (VList ["NY"; "ZZ"])) (values state_column)))))).
Proof.
  apply (value_setter_matches et_by_state states "state" (VList ["NY"; "ZZ"])
           state_column);
    [reflexivity | reflexivity | reflexivity |].
  intros l H. injection H as <-. vm_compute. discriminate.
Defined.


Lemma column_then_extract_witness :
  exists s r,
    getitem states "id" = Returns s
    /\ __coldata (snd (column_setter et_CA (Some "id"))) = Some s
    /\ value (snd (column_setter et_CA (Some "id"))) = None
    /\ extract wkt_points (snd (column_setter et_CA (Some "id"))) = Returns r
    /\ index r = values s
    /\ index_name r = Some "id"
    /\ nrows r = nrows states.
Proof.
  apply (column_then_extract wkt_points et_CA states "id");
    [reflexivity | reflexivity | discriminate].
Defined.

Lemma list_columns_geometry_witness :
  (exists l,
      list_columns et_places = Returns l
      /\ (In "geometry" l <->
          exists x, In x [CGeom "POINT (0 0)"; CGeom "POINT (1 1)"] /\ isna x = false)
      /\ (forall c, c <> "geometry" -> (In c l <-> In c (columns places))))
  /\ (exists l,
         list_columns et_states = Returns l
         /\ (In "geometry" l <->
             exists x, In x [CNull; CNull; CNull] /\ isna x = false)
         /\ (forall c, c <> "geometry" -> (In c l <-> In c (columns states)))).
Proof.
  split.
  - apply (list_columns_geometry et_places places
             (mkSeries "geometry" [CGeom "POINT (0 0)"; CGeom "POINT (1 1)"]));
      reflexivity.
  - apply (list_columns_geometry et_states states
             (mkSeries "geometry" [CNull; CNull; CNull]));
      reflexivity.
Defined.

Lemma list_values_of_column_witness :
  (exists vs us,
      list_values et_states (Some "state") false = Returns vs
      /\ list_values et_states (Some "state") true = Returns us
      /\ length vs = nrows states
      /\ NoDup us
      /\ (forall x, In x us <-> In x vs))
  /\ (forall u, list_values et_states (Some "county") u
                = Raises (UnableToFindColumn "county")).
Proof.
  split.
  - apply (proj1 (list_values_of_column wkt_points et_states states "state" eq_refl)).
    reflexivity.
  - apply (proj2 (list_values_of_column wkt_points et_states states "county" eq_refl)).
    reflexivity.
Defined.

Lemma read_file_not_archive_witness :
  __read_file wkt_points reread_plain 5 (PyStr "in.csv") os_csv
  = __read_file wkt_points reread_plain 0 (PyStr "in.csv") os_csv
  /\ snd (__read_file wkt_points reread_plain 5 (PyStr "in.csv") os_csv) = os_csv
  /\ fst (__read_file wkt_points reread_plain 5 (PyStr "in.csv") os_csv) <> OutOfFuel
  /\ (forall name' gdf os',
        __read_file wkt_points reread_plain 5 (PyStr "in.csv") os_csv
        = (Returns (name', gdf), os') ->
        name' = "in.csv" /\ has_column gdf "geometry" = true).
Proof.
  apply (read_file_not_archive wkt_points reread_plain 5 "in.csv" os_csv).
  vm_compute. discriminate.
Defined.

Lemma read_csv_fallbacks_witness :
  __read_file wkt_points reread_plain 0 (PyStr "in.csv") os_csv
  = (Returns ("in.csv", __geometrize_gdf wkt_points states_raw), os_csv).
Proof.
  apply (read_csv_fallbacks wkt_points reread_plain 0 "in.csv" os_csv
           (fun r => match r with read_csv => Some states_raw | _ => None end) None);
    reflexivity.
Defined.



Lemma unzip_outcomes_witness :
  os_path_isdir (snd (__unzip "data.zip" os_zip)) (path_parts "data") = true
  /\ ["data/in.csv"]
     = map (fun q => os_path_join "data" (last (fst q) ""))
         (filter (fun q => path_eqb (parent (fst q)) (path_parts "data")
                           && negb (path_eqb (fst q) (path_parts "data")))
            (os_files (snd (__unzip "data.zip" os_zip)))).
Proof.
  apply (proj1 (unzip_outcomes "data.zip" os_zip) ["data/in.csv"]
               (snd (__unzip "data.zip" os_zip))).
  reflexivity.
Defined.

Lemma load_from_path_fails_witness :
  infile_setter wkt_points reread_plain 0 blank (PyStr "missing.csv") os_nothing
  = (Raises (NotFound (Lib ValueError "DataFrame constructor not properly called!")),
     blank, os_nothing)
  /\ (blank = blank
      /\ NotFound (Lib ValueError "DataFrame constructor not properly called!")
         = NotFound (Lib ValueError "DataFrame constructor not properly called!")
      /\ NotFoundError
           (NotFound (Lib ValueError "DataFrame constructor not properly called!"))).
Proof.
  split; [reflexivity|].
  apply (load_from_path_fails wkt_points reread_plain 0 blank blank
           (PyStr "missing.csv") "missing.csv" os_nothing os_nothing);
    reflexivity.
Defined.

Lemma load_in_memory_witness :
  infile_setter wkt_points reread_plain 0 et_states (PyFrame places_raw) os_nothing
  = (Returns tt, et_places, os_nothing).
Proof.
  apply (load_in_memory wkt_points reread_plain 0 et_states places_raw os_nothing).
  reflexivity.
Defined.


Lemma extract_to_file_writes_destination_witness :
  exists w df,
    lookup (place (AsPath ["out"; "new"; "dir"; "result.csv"]))
      (os_files (snd (extract_to_file wkt_points 1 et_states_out None None os_nothing)))
    = Some (Output w df)
    /\ os_path_isdir
         (snd (extract_to_file wkt_points 1 et_states_out None None os_nothing))
         (parent (place (AsPath ["out"; "new"; "dir"; "result.csv"]))) = true
    /\ os_stdout (snd (extract_to_file wkt_points 1 et_states_out None None os_nothing))
       = os_stdout os_nothing.
Proof.
  apply (extract_to_file_writes_destination wkt_points 0 et_states_out None None
           os_nothing
           (snd (extract_to_file wkt_points 1 et_states_out None None os_nothing))
           (AsPath ["out"; "new"; "dir"; "result.csv"]));
    reflexivity.
Defined.

Lemma non_spatial_written_as_table_witness :
  exists w df,
    drop states "geometry" = Returns df
    /\ lookup (place (AsStr "states.shp"))
         (os_files (snd (extract_to_file wkt_points 1 et_states (Some "states.shp")
                           (Some "ESRI Shapefile") os_nothing)))
       = Some (Output w df)
    /\ (forall d, w <> to_file d).
Proof.
  apply (non_spatial_written_as_table wkt_points 0 et_states (Some "states.shp")
           (Some "ESRI Shapefile") os_nothing
           (snd (extract_to_file wkt_points 1 et_states (Some "states.shp")
                   (Some "ESRI Shapefile") os_nothing))
           (AsStr "states.shp") states);
    reflexivity.
Defined.

Lemma csv_written_with_index_iff_column_witness :
  exists df,
    drop states "geometry" = Returns df
    /\ lookup (place (AsStr "STATES.CSV"))
         (os_files (snd (extract_to_file wkt_points 1 et_states (Some "STATES.CSV")
                           None os_nothing)))
       = Some (Output (to_csv false) df).
Proof.
  apply (csv_written_with_index_iff_column wkt_points 0 et_states
           (Some "STATES.CSV") None os_nothing
           (snd (extract_to_file wkt_points 1 et_states (Some "STATES.CSV") None
                   os_nothing))
           (AsStr "STATES.CSV") states false);
    try reflexivity.
  now left.
Defined.

Lemma extract_to_file_raises_witness :
  (WriteError (ExtractionFailed (Lib FileNotFoundError "out/new/dir/result.csv"))
   /\ Some (AsStr "out/new/dir/result.csv") <> None
   /\ exists gdf, extract wkt_points et_states = Returns gdf)
  \/ (os_nothing = os_nothing
      /\ (extract wkt_points et_states
          = Raises (ExtractionFailed (Lib FileNotFoundError "out/new/dir/result.csv"))
          \/ exists gdf,
               extract wkt_points et_states = Returns gdf
               /\ __has_spatial_data gdf
                  = Raises (ExtractionFailed
                              (Lib FileNotFoundError "out/new/dir/result.csv")))).
Proof.
  apply (extract_to_file_raises wkt_points 0 et_states
           (Some "out/new/dir/result.csv") None os_nothing os_nothing
           (ExtractionFailed (Lib FileNotFoundError "out/new/dir/result.csv"))).
  reflexivity.
Defined.

Lemma extract_to_stdout_witness :
  exists df,
    drop states "geometry" = Returns df
    /\ extract_to_file wkt_points 0 et_states None None os_nothing
       = (Returns tt,
          mkOS (os_dirs os_nothing) (os_files os_nothing) (os_refused os_nothing)
               (os_stdout os_nothing ++ [(to_string, df)])).
Proof.
  apply (extract_to_stdout wkt_points 0 et_states None os_nothing states false);
    reflexivity.
Defined.





Lemma geometrize_parses_witness :
  getitem (__geometrize_gdf wkt_points places_raw) "geometry"
  = Returns (mkSeries "geometry" [CGeom "POINT (0 0)"; CGeom "POINT (1 1)"])
  /\ forall c, c <> "geometry" ->
       getitem (__geometrize_gdf wkt_points places_raw) c = getitem places_raw c.
Proof.
  apply (geometrize_parses wkt_points places_raw
           (mkSeries "geometry" [CStr "POINT (0 0)"; CStr "POINT (1 1)"])
           [CGeom "POINT (0 0)"; CGeom "POINT (1 1)"]).
  - repeat constructor; simpl; intuition discriminate.
  - repeat constructor.
  - reflexivity.
  - reflexivity.
Defined.
